(** * WordCloud: news aggregation and word-cloud rendering

    A shallow embedding of [word_cloud.py]: the NLTK resource check, the
    feed and article collection, the dataset export, the renderer and the
    script body, in a state-and-exception monad.  Calls into third-party
    libraries (requests, bs4, newspaper3k, PyYAML, pandas, PIL, wordcloud,
    matplotlib, nltk) are fields of a record of external capabilities. *)

From stdpp Require Import gmap strings list fin_maps.
From Stdlib Require Import ZArith Ascii.

#[local] Set Warnings "-register-all".
Local Open Scope string_scope.

(** ** Exceptions

    The subclasses of Python's [Exception] that the script can meet.
    Process signals ([KeyboardInterrupt], [SystemExit]) derive from
    [BaseException] only and are not failures of a call; they are outside
    the model. *)

Inductive exception : Type :=
  | LookupError | KeyError | IndexError
  | AttributeError | TypeError | ValueError
  | OSError | FileNotFoundError
  | YAMLError | RequestException | ArticleException
  | RuntimeError.

Inductive exception_class : Type := Exception_cls | LookupError_cls.

(** [isinstance e c]: the class named in an [except] clause matches. *)
Definition isinstance (e : exception) (c : exception_class) : bool :=
  match c with
  | Exception_cls => true
  | LookupError_cls =>
      match e with
      | LookupError | KeyError | IndexError => true
      | _ => false
      end
  end.

Inductive result (A : Type) : Type :=
  | Ok (a : A)
  | Raise (e : exception).
Arguments Ok {A} a.
Arguments Raise {A} e.

Definition is_ok {A} (r : result A) : bool :=
  match r with Ok _ => true | Raise _ => false end.

(** ** Dates and [strftime("%m_%d_%y")] *)

Record date : Type := { year : nat; month : nat; day : nat }.

Definition digit (n : nat) : ascii := ascii_of_nat (48 + n mod 10).

(** [%m], [%d] and [%y] are two decimal digits, zero padded. *)
Definition pad2 (n : nat) : string :=
  String (digit (n / 10)) (String (digit n) EmptyString).

Definition strftime_m_d_y (d : date) : string :=
  pad2 (month d) ++ "_" ++ pad2 (day d) ++ "_" ++ pad2 (year d mod 100).

(** ** Process state

    What a call can change or read besides its arguments: the working
    directory, the console, the requests made to the NLTK downloader, and
    the entropy the operating system hands to an unseeded [Random()]. *)

Record state : Type := {
  files : gmap string string;
  stdout : list string;
  nltk_downloads : list string;
  os_entropy : nat -> Z;
  entropy_used : nat;
  clock : date
}.

Definition set_files (f : gmap string string -> gmap string string) (s : state) : state :=
  {| files := f (files s); stdout := stdout s;
     nltk_downloads := nltk_downloads s;
     os_entropy := os_entropy s; entropy_used := entropy_used s;
     clock := clock s |}.

Definition set_stdout (f : list string -> list string) (s : state) : state :=
  {| files := files s; stdout := f (stdout s);
     nltk_downloads := nltk_downloads s;
     os_entropy := os_entropy s; entropy_used := entropy_used s;
     clock := clock s |}.

Definition set_nltk_downloads (f : list string -> list string) (s : state) : state :=
  {| files := files s; stdout := stdout s;
     nltk_downloads := f (nltk_downloads s);
     os_entropy := os_entropy s; entropy_used := entropy_used s;
     clock := clock s |}.

Definition set_entropy_used (f : nat -> nat) (s : state) : state :=
  {| files := files s; stdout := stdout s;
     nltk_downloads := nltk_downloads s;
     os_entropy := os_entropy s; entropy_used := f (entropy_used s);
     clock := clock s |}.

(** ** The monad of the script

    State passing with exceptions; an exception keeps the effects made
    before the raise.  The state is the process state for a function of
    the script, and a local accumulator for the body of one of its loops. *)

Definition exc_state (St A : Type) : Type := St -> result A * St.

Definition es_ret {St A} (a : A) : exc_state St A := fun s => (Ok a, s).

Definition es_bind {St A B} (f : A -> exc_state St B) (m : exc_state St A)
    : exc_state St B :=
  fun s =>
    match m s with
    | (Ok a, s') => f a s'
    | (Raise e, s') => (Raise e, s')
    end.

#[global] Instance es_mret {St} : MRet (exc_state St) := @es_ret St.
#[global] Instance es_mbind {St} : MBind (exc_state St) := @es_bind St.

Definition raise {St A} (e : exception) : exc_state St A := fun s => (Raise e, s).

Definition lift {St A} (r : result A) : exc_state St A := fun s => (r, s).

Definition get_state {St} : exc_state St St := fun s => (Ok s, s).

Definition modify {St} (f : St -> St) : exc_state St unit := fun s => (Ok tt, f s).

(** The first [except] clause whose class matches handles the exception. *)
Fixpoint find_handler {H} (e : exception) (hs : list (exception_class * H)) : option H :=
  match hs with
  | [] => None
  | (c, h) :: hs' => if isinstance e c then Some h else find_handler e hs'
  end.

(** [try: body except C1: h1 except C2: h2 ...]: an exception no clause
    matches passes through; the state reached at the raise is kept. *)
Definition try_except {St A} (body : exc_state St A)
    (hs : list (exception_class * (exception -> exc_state St A))) : exc_state St A :=
  fun s =>
    match body s with
    | (Ok a, s') => (Ok a, s')
    | (Raise e, s') =>
        match find_handler e hs with
        | Some h => h e s'
        | None => (Raise e, s')
        end
    end.

(** [for x in xs: body]. *)
Fixpoint for_each {St A} (xs : list A) (body : A -> exc_state St unit)
    : exc_state St unit :=
  match xs with
  | [] => mret tt
  | x :: xs' => body x ;; for_each xs' body
  end.

(** A loop over a local accumulator, run inside a function of the script:
    the accumulator's final value, or the exception that left the loop. *)
Definition run_local {L St} (m : exc_state L unit) (l0 : L) : exc_state St L :=
  match m l0 with
  | (Ok _, l) => mret l
  | (Raise e, _) => raise e
  end.

Abbreviation py := (exc_state state).

(** ** Values read from YAML *)

Inductive pyval : Type :=
  | PyNone
  | PyBool (b : bool)
  | PyInt (z : Z)
  | PyStr (s : string)
  | PyList (l : list pyval)
  | PyDict (d : list (string * pyval)).

(** A dict is kept as its items in insertion order (keys are distinct in
    a Python dict; only string keys can equal the key looked up here). *)
Fixpoint dict_lookup (d : list (string * pyval)) (key : string) : option pyval :=
  match d with
  | [] => None
  | (k, v) :: d' => if String.eqb k key then Some v else dict_lookup d' key
  end.

(** [v.get(key, default)]: only a dict has the method. *)
Definition dict_get (v : pyval) (key : string) (default : pyval) : result pyval :=
  match v with
  | PyDict d =>
      match dict_lookup d key with
      | Some x => Ok x
      | None => Ok default
      end
  | _ => Raise AttributeError
  end.

Fixpoint chars (s : string) : list string :=
  match s with
  | EmptyString => []
  | String c s' => String c EmptyString :: chars s'
  end.

(** [for x in v]: the elements a [for] loop visits, or [TypeError] for a
    value that is not iterable. *)
Definition py_iter (v : pyval) : result (list pyval) :=
  match v with
  | PyList l => Ok l
  | PyStr s => Ok (PyStr <$> chars s)
  | PyDict d => Ok ((fun kv => PyStr (fst kv)) <$> d)
  | PyNone | PyBool _ | PyInt _ => Raise TypeError
  end.

(** Truth value of a string, and of an optional string argument. *)
Definition str_truthy (s : string) : bool :=
  match s with EmptyString => false | _ => true end.

Definition opt_str_truthy (o : option string) : bool :=
  match o with Some s => str_truthy s | None => false end.


(** ** External capabilities

    What the script asks of its libraries.  The network and the installed
    NLTK data are a snapshot for the run: a call's outcome is a function of
    its arguments. *)

Record response : Type := { status_code : Z; content : string }.

(** Keyword arguments of the [WordCloud] constructor, as the script sets them. *)
Record wc_params (image : Type) : Type := {
  wc_stopwords : gset string;
  wc_collocations : bool;
  wc_background_color : string;
  wc_mask : option image;
  wc_colormap : option string;
  wc_random_state : option Z
}.
Arguments wc_stopwords {image} _.
Arguments wc_collocations {image} _.
Arguments wc_background_color {image} _.
Arguments wc_mask {image} _.
Arguments wc_colormap {image} _.
Arguments wc_random_state {image} _.

Record externals : Type := {
  (* nltk *)
  nltk_data_find : string -> result unit;
  (* PyYAML *)
  yaml_safe_load : string -> result pyval;
  (* requests *)
  requests_get : pyval -> Z -> result response;
  (* bs4 *)
  soup : Type;
  tag : Type;
  BeautifulSoup : string -> string -> result soup;
  soup_find_all : soup -> string -> list tag;
  tag_find : tag -> string -> option tag;
  tag_text : tag -> string;
  (* newspaper3k: download, parse, nlp *)
  article_download : string -> result string;
  article_parse : string -> string -> result string;
  article_nlp : string -> string -> result (list string);
  (* pandas: one line of a CSV file, and [str] of a list of strings *)
  csv_line : list string -> string;
  str_of_list : list string -> string;
  (* PIL and numpy *)
  image : Type;
  Image_open : string -> result image;
  (* wordcloud *)
  STOPWORDS : gset string;
  color_func : Type;
  cloud : Type;
  ImageColorGenerator : image -> result color_func;
  (* layout and colouring with the generator [Random(seed)] *)
  wordcloud_layout : wc_params image -> Z -> string -> result cloud;
  wordcloud_recolor : cloud -> color_func -> result cloud;
  (* matplotlib: the PNG of a figure of the given size showing the cloud *)
  plt_savefig : nat * nat -> cloud -> string
}.

(** ** The script *)

(** A row of the dataset: [[url, article.keywords, article.text]]. *)
Definition row : Type := string * list string * string.

Definition row_URL (r : row) : string := r.1.1.
Definition row_Keywords (r : row) : list string := r.1.2.
Definition row_Text (r : row) : string := r.2.

Record DataFrame : Type := { columns : list string; rows : list row }.

Definition df_Keywords (df : DataFrame) : list (list string) := row_Keywords <$> rows df.

(** The arguments of one call to [generate_wordcloud]. *)
Record wordcloud_args : Type := {
  text : string;
  output_prefix : string;
  today : date;
  stopwords : gset string;
  mask_image : option string;
  figsize : nat * nat;
  background_color : string;
  colormap : option string;
  recolor_from_mask : bool;
  random_state : option Z
}.

Definition apostrophe : string := String (ascii_of_nat 39) EmptyString.

Section Script.

Context (E : externals).

Definition print (line : string) : py unit :=
  modify (set_stdout (fun out => (out ++ [line])%list)).

(** [nltk.download(name)]: the request is recorded. *)
Definition nltk_download (name : string) : py unit :=
  modify (set_nltk_downloads (fun ds => (ds ++ [name])%list)).

Definition check_nltk_resource (resource_name : string) : py unit :=
  try_except
    (lift (nltk_data_find E ("tokenizers/" ++ resource_name ++ ".zip")) ;;
     print (apostrophe ++ resource_name ++ apostrophe ++ " is installed."))
    [ (LookupError_cls, fun _ => nltk_download "resource_name");
      (Exception_cls, fun _ =>
         try_except
           (lift (nltk_data_find E ("tokenizers/" ++ resource_name)) ;;
            print (apostrophe ++ resource_name ++ apostrophe ++ " is installed."))
           [ (LookupError_cls, fun _ => nltk_download "resource_name") ]) ].

(** [open(path, "r")] and reading the whole file. *)
Definition open_read (path : string) : py string :=
  s ← get_state;
  match files s !! path with
  | Some data => mret data
  | None => raise FileNotFoundError
  end.

(** Writing a whole file.  The working directory is a flat, writable name
    space: a write the file system would refuse (a directory missing from
    the name, a directory of that name, no space left) is not modelled, so
    nothing below is stated about when a write succeeds. *)
Definition write_file (path data : string) : py unit :=
  modify (set_files (insert path data)).

(** The body of the loop over the feeds; the local state is [articles]. *)
Definition feed_body (timeout : Z) (feed : pyval) : exc_state (list string) unit :=
  try_except
    (response ← lift (requests_get E feed timeout);
     soup ← lift (BeautifulSoup E (content response) "xml");
     let items := soup_find_all E soup "item" in
     for_each items (fun item =>
       let link_tag := tag_find E item "link" in
       match link_tag with
       | Some t =>
           if str_truthy (tag_text E t)
           then modify (fun articles => (articles ++ [tag_text E t])%list)
           else mret tt
       | None => mret tt
       end))
    [ (Exception_cls, fun _ => mret tt) ].

(** The body of the loop over the article URLs; the local state is [data]. *)
Definition article_body (url : string) : exc_state (list row) unit :=
  try_except
    (html ← lift (article_download E url);
     article_text ← lift (article_parse E url html);
     keywords ← lift (article_nlp E url article_text);
     modify (fun data => (data ++ [(url, keywords, article_text)])%list))
    [ (Exception_cls, fun _ => mret tt) ].

Definition row_cells (r : row) : list string :=
  [row_URL r; str_of_list E (row_Keywords r); row_Text r].

(** [df.to_csv(filename, index=False)]: the header line, then one line
    per row. *)
Definition to_csv (df : DataFrame) (filename : string) : py unit :=
  write_file filename
    (String.concat "" (csv_line E <$> (columns df :: (row_cells <$> rows df)))).

Definition collect_news_articles (feeds_yaml_path : string) (today : date)
    (output_csv : bool) (timeout : Z) : py DataFrame :=
  f ← open_read feeds_yaml_path;
  feed_file ← lift (yaml_safe_load E f);
  feeds ← lift (dict_get feed_file "feeds" (PyList []));
  feeds ← lift (py_iter feeds);
  articles ← run_local (for_each feeds (feed_body timeout)) [];
  data ← run_local (for_each articles article_body) [];
  let df := {| columns := ["URL"; "Keywords"; "Text"]; rows := data |} in
  (if output_csv
   then to_csv df (strftime_m_d_y today ++ "_news.csv")
   else mret tt) ;;
  mret df.

(** [Random()]: the next value of the operating system's entropy. *)
Definition fresh_seed : py Z :=
  s ← get_state;
  modify (set_entropy_used S) ;;
  mret (os_entropy s (entropy_used s)).

Definition generate_wordcloud (a : wordcloud_args) : py unit :=
  '(mask, image_colors) ←
    (if opt_str_truthy (mask_image a)
     then
       data ← open_read (default "" (mask_image a));
       mask ← lift (Image_open E data);
       if recolor_from_mask a
       then
         image_colors ← lift (ImageColorGenerator E mask);
         mret (Some mask, Some image_colors)
       else mret (Some mask, None)
     else mret (None, None));
  seed ← match random_state a with
         | Some seed => mret seed
         | None => fresh_seed
         end;
  wordcloud ← lift (wordcloud_layout E
                      {| wc_stopwords := stopwords a;
                         wc_collocations := false;
                         wc_background_color := background_color a;
                         wc_mask := mask;
                         wc_colormap := colormap a;
                         wc_random_state := random_state a |}
                      seed (text a));
  wordcloud ← match image_colors with
              | Some color_func => lift (wordcloud_recolor E wordcloud color_func)
              | None => mret wordcloud
              end;
  write_file (output_prefix a ++ "_" ++ strftime_m_d_y (today a) ++ ".png")
    (plt_savefig E (figsize a) wordcloud).

(** The defaults of [generate_wordcloud]'s keyword arguments. *)
Definition wordcloud_defaults (text output_prefix : string) (today : date)
    : wordcloud_args :=
  {| text := text; output_prefix := output_prefix; today := today;
     stopwords := STOPWORDS E; mask_image := None; figsize := (20, 20);
     background_color := "white"; colormap := None;
     recolor_from_mask := false; random_state := None |}.

(** *** The script body ([__main__]) *)

Definition extra_stopwords : list string :=
  ["globalnews"; "guardian"; "abc"; "nbc"; "cbs"; "nytimes"; "globalnews"; "state"].

(** [stopwords = set(STOPWORDS); stopwords.update([...])]: a copy, the
    library's set is left as it is. *)
Definition main_stopwords : gset string :=
  STOPWORDS E ∪ list_to_set extra_stopwords.

Definition original_wordcloud (text : string) (today : date)
    (stopwords : gset string) : wordcloud_args :=
  {| text := text; output_prefix := "original_wordcloud"; today := today;
     stopwords := stopwords; mask_image := None; figsize := (20, 20);
     background_color := "white"; colormap := None;
     recolor_from_mask := false; random_state := None |}.

Definition us_flag_wordcloud (text : string) (today : date)
    (stopwords : gset string) : wordcloud_args :=
  {| text := text; output_prefix := "us_flag_wordcloud"; today := today;
     stopwords := stopwords; mask_image := Some "Flag.jpg"; figsize := (30, 30);
     background_color := "white"; colormap := None;
     recolor_from_mask := true; random_state := None |}.

Definition tree_wordcloud (text : string) (today : date)
    (stopwords : gset string) : wordcloud_args :=
  {| text := text; output_prefix := "tree_wordcloud"; today := today;
     stopwords := stopwords; mask_image := Some "Tree.jpg"; figsize := (20, 20);
     background_color := "white"; colormap := None;
     recolor_from_mask := true; random_state := None |}.

(** The last call passes the library's [STOPWORDS], not the local set. *)
Definition modern_wordcloud (text : string) (today : date) : wordcloud_args :=
  {| text := text; output_prefix := "wordcloud"; today := today;
     stopwords := STOPWORDS E; mask_image := Some "comment.png"; figsize := (50, 50);
     background_color := "white"; colormap := Some "rainbow";
     recolor_from_mask := false; random_state := Some 1%Z |}.

(** The renderer calls of the script, in order. *)
Definition main_calls (text : string) (today : date) : list wordcloud_args :=
  [ original_wordcloud text today main_stopwords;
    us_flag_wordcloud text today main_stopwords;
    tree_wordcloud text today main_stopwords;
    modern_wordcloud text today ].

Definition main : py unit :=
  check_nltk_resource "punkt_tab" ;;
  s ← get_state;
  let today := clock s in
  df ← collect_news_articles "feeds.yaml" today true 15;
  let stopwords := main_stopwords in
  let keywords := concat (df_Keywords df) in
  let text := String.concat " " keywords in
  generate_wordcloud (original_wordcloud text today stopwords) ;;
  generate_wordcloud (us_flag_wordcloud text today stopwords) ;;
  generate_wordcloud (tree_wordcloud text today stopwords) ;;
  generate_wordcloud (modern_wordcloud text today).

End Script.

(** ** What the loops compute *)

Section Collected.

Context (E : externals).

(** The link text an item contributes: that of its [link] tag when the
    tag is there and its text is not empty. *)
Definition item_link (item : tag E) : list string :=
  match tag_find E item "link" with
  | Some t => if str_truthy (tag_text E t) then [tag_text E t] else []
  | None => []
  end.

(** The fetch or the parse of a feed raises. *)
Definition feed_fails (timeout : Z) (feed : pyval) : bool :=
  match requests_get E feed timeout with
  | Raise _ => true
  | Ok response =>
      match BeautifulSoup E (content response) "xml" with
      | Raise _ => true
      | Ok _ => false
      end
  end.

Definition feed_links (timeout : Z) (feed : pyval) : list string :=
  match requests_get E feed timeout with
  | Raise _ => []
  | Ok response =>
      match BeautifulSoup E (content response) "xml" with
      | Raise _ => []
      | Ok soup => soup_find_all E soup "item" ≫= item_link
      end
  end.

(** Download, parse and keyword extraction of an article all succeed. *)
Definition all_stages_succeed (url : string) : bool :=
  match article_download E url with
  | Raise _ => false
  | Ok html =>
      match article_parse E url html with
      | Raise _ => false
      | Ok article_text => is_ok (article_nlp E url article_text)
      end
  end.

Definition article_record (url : string) : option row :=
  match article_download E url with
  | Raise _ => None
  | Ok html =>
      match article_parse E url html with
      | Raise _ => None
      | Ok article_text =>
          match article_nlp E url article_text with
          | Raise _ => None
          | Ok keywords => Some (url, keywords, article_text)
          end
      end
  end.

(** The feeds named by the config file, when it loads. *)
Definition load_feeds (feeds_yaml_path : string) (s : state) : result (list pyval) :=
  match files s !! feeds_yaml_path with
  | None => Raise FileNotFoundError
  | Some f =>
      match yaml_safe_load E f with
      | Raise e => Raise e
      | Ok feed_file =>
          match dict_get feed_file "feeds" (PyList []) with
          | Raise e => Raise e
          | Ok feeds => py_iter feeds
          end
      end
  end.

Definition news_csv (today : date) : string := strftime_m_d_y today ++ "_news.csv".

Definition csv_data (df : DataFrame) : string :=
  String.concat "" (csv_line E <$> (columns df :: (row_cells E <$> rows df))).

(** The rows the article loop builds from the links of the feeds. *)
Definition dataset (timeout : Z) (feeds : list pyval) : list row :=
  omap article_record (feeds ≫= feed_links timeout).

Definition news_frame (timeout : Z) (feeds : list pyval) : DataFrame :=
  {| columns := ["URL"; "Keywords"; "Text"]; rows := dataset timeout feeds |}.

End Collected.

(** ** Observations on a call *)

Section Observations.

Context (E : externals).

(** The lookups of [check_nltk_resource] end in a [LookupError]: at the
    first [find], or at the second one after another exception. *)
Definition nltk_lookup_fails (resource_name : string) : bool :=
  match nltk_data_find E ("tokenizers/" ++ resource_name ++ ".zip") with
  | Ok _ => false
  | Raise e =>
      isinstance e LookupError_cls
      || match nltk_data_find E ("tokenizers/" ++ resource_name) with
         | Ok _ => false
         | Raise e' => isinstance e' LookupError_cls
         end
  end.


Definition output_file (a : wordcloud_args) : string :=
  output_prefix a ++ "_" ++ strftime_m_d_y (today a) ++ ".png".

(** The image a call leaves in its output file, when it returns. *)
Definition output_image (a : wordcloud_args) (s : state) : option string :=
  match generate_wordcloud E a s with
  | (Ok _, s') => files s' !! output_file a
  | (Raise _, _) => None
  end.

Definition with_recolor_from_mask (b : bool) (a : wordcloud_args) : wordcloud_args :=
  {| text := text a; output_prefix := output_prefix a; today := today a;
     stopwords := stopwords a; mask_image := mask_image a; figsize := figsize a;
     background_color := background_color a; colormap := colormap a;
     recolor_from_mask := b; random_state := random_state a |}.

(** The seed the layout runs with, and the state after drawing it. *)
Definition seed_of (a : wordcloud_args) (s : state) : Z * state :=
  match random_state a with
  | Some seed => (seed, s)
  | None => (os_entropy s (entropy_used s), set_entropy_used S s)
  end.

Definition params_of (a : wordcloud_args) (mask : option (image E)) : wc_params (image E) :=
  {| wc_stopwords := stopwords a;
     wc_collocations := false;
     wc_background_color := background_color a;
     wc_mask := mask;
     wc_colormap := colormap a;
     wc_random_state := random_state a |}.

End Observations.

Definition is_dict (v : pyval) : bool :=
  match v with PyDict _ => true | _ => false end.

(** [key in v] for a value read from YAML that may not be a dict. *)
Definition has_key (v : pyval) (key : string) : bool :=
  match v with
  | PyDict d => bool_decide (is_Some (dict_lookup d key))
  | _ => false
  end.

(** ** A small world to run the script in *)

Module Demo.

Inductive xml : Type := Elem (name : string) (txt : string) (children : list xml).

Definition xml_name (x : xml) : string := match x with Elem n _ _ => n end.
Definition xml_text (x : xml) : string := match x with Elem _ t _ => t end.
Definition xml_children (x : xml) : list xml := match x with Elem _ _ c => c end.

Definition newline : string := String (ascii_of_nat 10) EmptyString.

Definition feed_A : list xml :=
  [ Elem "item" "" [Elem "title" "one" []; Elem "link" "http://a/1" []];
    Elem "item" "" [Elem "title" "no link" []];
    Elem "item" "" [Elem "link" "" []];
    Elem "item" "" [Elem "link" "http://a/2" []];
    Elem "item" "" [Elem "link" "http://a/3" []] ].

Definition env : externals :=
  {| nltk_data_find := fun _ => Raise LookupError;
     yaml_safe_load := fun f =>
       if decide (f = "feeds: [A, B, C]")
       then Ok (PyDict [("feeds", PyList [PyStr "A"; PyStr "B"; PyStr "C"])])
       else if decide (f = "feeds: [B]")
       then Ok (PyDict [("feeds", PyList [PyStr "B"])])
       else if decide (f = "sources: [A]")
       then Ok (PyDict [("sources", PyList [PyStr "A"])])
       else if decide (f = "")
       then Ok PyNone
       else Raise YAMLError;
     requests_get := fun feed _ =>
       match feed with
       | PyStr "A" => Ok {| status_code := 200; content := "rss A" |}
       | PyStr "C" => Ok {| status_code := 200; content := "<<<" |}
       | _ => Raise RequestException
       end;
     soup := list xml;
     tag := xml;
     BeautifulSoup := fun markup _ =>
       if decide (markup = "rss A") then Ok feed_A else Raise ValueError;
     soup_find_all := fun sp name => filter (fun x => xml_name x = name) sp;
     tag_find := fun t name => head (filter (fun x => xml_name x = name) (xml_children t));
     tag_text := xml_text;
     article_download := fun url =>
       if decide (url = "http://a/1") then Ok "<p>storm hits coast</p>"
       else if decide (url = "http://a/3") then Ok "<p></p>"
       else Raise ArticleException;
     article_parse := fun _ html =>
       if decide (html = "<p>storm hits coast</p>") then Ok "storm hits coast"
       else if decide (html = "<p></p>") then Ok ""
       else Raise ArticleException;
     article_nlp := fun _ article_text =>
       if decide (article_text = "") then Ok [] else Ok ["storm"; "coast"];
     csv_line := fun cells => String.concat "," cells ++ newline;
     str_of_list := fun l => "[" ++ String.concat ", " l ++ "]";
     image := string;
     Image_open := fun data => if decide (data = "") then Raise OSError else Ok data;
     STOPWORDS := {[ "the"; "a"; "of" ]};
     color_func := string;
     cloud := string;
     ImageColorGenerator := fun mask => Ok mask;
     wordcloud_layout := fun _ seed words =>
       if decide (words = "") then Raise ValueError
       else Ok (words ++ (if Z.even seed then " [even]" else " [odd]"));
     wordcloud_recolor := fun c colors => Ok (c ++ " in " ++ colors);
     plt_savefig := fun _ c => "PNG " ++ c |}.

Definition start : state :=
  {| files := {[ "feeds.yaml" := "feeds: [A, B, C]";
                 "down.yaml" := "feeds: [B]";
                 "other.yaml" := "sources: [A]";
                 "empty.yaml" := "";
                 "broken.yaml" := "feeds: [";
                 "Flag.jpg" := "stars and stripes";
                 "Tree.jpg" := "green";
                 "comment.png" := "bubble" ]};
     stdout := [];
     nltk_downloads := [];
     os_entropy := fun n => Z.of_nat n;
     entropy_used := 0;
     clock := {| year := 2026; month := 3; day := 9 |} |}.

Definition plain_call : wordcloud_args :=
  {| text := "storm coast"; output_prefix := "cloud"; today := clock start;
     stopwords := STOPWORDS env; mask_image := None; figsize := (20, 20);
     background_color := "white"; colormap := None;
     recolor_from_mask := true; random_state := None |}.



Definition later_state : state :=
  {| files := ∅; stdout := ["earlier output"]; nltk_downloads := [];
     os_entropy := fun n => Z.of_nat (S n); entropy_used := 4;
     clock := {| year := 2026; month := 3; day := 10 |} |}.

End Demo.

(** ** Further observations *)

(** One of the two lookups of [check_nltk_resource] finds the resource:
    the first, or the second after an exception that is not a
    [LookupError]. *)
Definition nltk_lookup_finds (E : externals) (resource_name : string) : bool :=
  match nltk_data_find E ("tokenizers/" ++ resource_name ++ ".zip") with
  | Ok _ => true
  | Raise e =>
      negb (isinstance e LookupError_cls)
      && is_ok (nltk_data_find E ("tokenizers/" ++ resource_name))
  end.

Definition installed_message (resource_name : string) : string :=
  apostrophe ++ resource_name ++ apostrophe ++ " is installed.".

Definition with_mask_image (m : option string) (a : wordcloud_args) : wordcloud_args :=
  {| text := text a; output_prefix := output_prefix a; today := today a;
     stopwords := stopwords a; mask_image := m; figsize := figsize a;
     background_color := background_color a; colormap := colormap a;
     recolor_from_mask := recolor_from_mask a; random_state := random_state a |}.

(** The text the script hands to the renderer: the keywords of all rows,
    joined by single spaces. *)
Definition keywords_text (df : DataFrame) : string :=
  String.concat " " (concat (df_Keywords df)).

(** The name of an image file: prefix, date, extension. *)
Definition png_name (prefix : string) (d : date) : string :=
  prefix ++ "_" ++ strftime_m_d_y d ++ ".png".

(** A necessary condition for a document to be well-formed XML: every
    tag that is opened is closed, in order.  [cur] is the name of the tag
    being read, [stack] the tags that are open. *)
Fixpoint tags_balanced_go (s : string) (cur : option string) (stack : list string)
    : bool :=
  match s with
  | EmptyString =>
      match cur with
      | None => bool_decide (stack = [])
      | Some _ => false
      end
  | String c s' =>
      match cur with
      | None =>
          if Ascii.eqb c "<" then tags_balanced_go s' (Some "") stack
          else tags_balanced_go s' None stack
      | Some name =>
          if Ascii.eqb c ">"
          then
            match name with
            | String "/" closing =>
                match stack with
                | top :: rest =>
                    if String.eqb top closing then tags_balanced_go s' None rest
                    else false
                | [] => false
                end
            | _ => tags_balanced_go s' None (name :: stack)
            end
          else tags_balanced_go s' (Some (name ++ String c EmptyString)) stack
      end
  end.

Definition tags_balanced (s : string) : bool := tags_balanced_go s None [].

(** A world whose XML parser recovers from errors, as lxml does: one feed
    answers with a document cut off before its closing tags, and the
    parser gives the items read so far without raising. *)
Module Lenient.

Definition truncated : string :=
  "<rss><channel><item><link>http://a/1</link></item><item><link>http://a/2</link></item>".

Definition recovered : list Demo.xml :=
  [ Demo.Elem "item" "" [Demo.Elem "link" "http://a/1" []];
    Demo.Elem "item" "" [Demo.Elem "link" "http://a/2" []] ].

Definition env : externals :=
  {| nltk_data_find := nltk_data_find Demo.env;
     yaml_safe_load := yaml_safe_load Demo.env;
     requests_get := fun feed timeout =>
       match feed with
       | PyStr "T" => Ok {| status_code := 200; content := truncated |}
       | _ => requests_get Demo.env feed timeout
       end;
     soup := list Demo.xml;
     tag := Demo.xml;
     BeautifulSoup := fun markup _ =>
       if decide (markup = truncated) then Ok recovered
       else if decide (markup = "rss A") then Ok Demo.feed_A
       else Ok [];
     soup_find_all := soup_find_all Demo.env;
     tag_find := tag_find Demo.env;
     tag_text := tag_text Demo.env;
     article_download := article_download Demo.env;
     article_parse := article_parse Demo.env;
     article_nlp := article_nlp Demo.env;
     csv_line := csv_line Demo.env;
     str_of_list := str_of_list Demo.env;
     image := image Demo.env;
     Image_open := Image_open Demo.env;
     STOPWORDS := STOPWORDS Demo.env;
     color_func := color_func Demo.env;
     cloud := cloud Demo.env;
     ImageColorGenerator := ImageColorGenerator Demo.env;
     wordcloud_layout := wordcloud_layout Demo.env;
     wordcloud_recolor := wordcloud_recolor Demo.env;
     plt_savefig := plt_savefig Demo.env |}.

End Lenient.

(** A second world: the tokenizer data is unpacked (no zip file), one
    resource is damaged, and one feed answers 404 with a feed as body. *)
Module Demo2.

Definition env : externals :=
  {| nltk_data_find := fun path =>
       if decide (path = "tokenizers/punkt_tab.zip") then Raise OSError
       else if decide (path = "tokenizers/punkt_tab") then Ok tt
       else if decide (path = "tokenizers/damaged.zip") then Raise OSError
       else if decide (path = "tokenizers/damaged") then Raise ValueError
       else if decide (path = "tokenizers/punkt.zip") then Ok tt
       else Raise LookupError;
     yaml_safe_load := fun f =>
       if decide (f = "feeds:") then Ok (PyDict [("feeds", PyNone)])
       else if decide (f = "feeds: AD")
       then Ok (PyDict [("feeds", PyStr "AD")])
       else if decide (f = "feeds: [A, A]")
       then Ok (PyDict [("feeds", PyList [PyStr "A"; PyStr "A"])])
       else yaml_safe_load Demo.env f;
     requests_get := fun feed timeout =>
       match feed with
       | PyStr "D" => Ok {| status_code := 404; content := "rss A" |}
       | _ => requests_get Demo.env feed timeout
       end;
     soup := soup Demo.env;
     tag := tag Demo.env;
     BeautifulSoup := BeautifulSoup Demo.env;
     soup_find_all := soup_find_all Demo.env;
     tag_find := tag_find Demo.env;
     tag_text := tag_text Demo.env;
     article_download := article_download Demo.env;
     article_parse := article_parse Demo.env;
     article_nlp := article_nlp Demo.env;
     csv_line := csv_line Demo.env;
     str_of_list := str_of_list Demo.env;
     image := image Demo.env;
     Image_open := Image_open Demo.env;
     STOPWORDS := STOPWORDS Demo.env;
     color_func := color_func Demo.env;
     cloud := cloud Demo.env;
     ImageColorGenerator := ImageColorGenerator Demo.env;
     wordcloud_layout := wordcloud_layout Demo.env;
     wordcloud_recolor := wordcloud_recolor Demo.env;
     plt_savefig := plt_savefig Demo.env |}.

Definition state_with (fs : gmap string string) : state :=
  {| files := fs; stdout := []; nltk_downloads := [];
     os_entropy := fun n => Z.of_nat n; entropy_used := 0;
     clock := {| year := 2026; month := 3; day := 9 |} |}.

(** The working directory without the flag image. *)
Definition no_flag : state :=
  state_with {[ "feeds.yaml" := "feeds: [A, B, C]";
                "Tree.jpg" := "green";
                "comment.png" := "bubble" ]}.

(** The working directory when every feed is down. *)
Definition all_down : state :=
  state_with {[ "feeds.yaml" := "feeds: [B]";
                "Flag.jpg" := "stars and stripes";
                "Tree.jpg" := "green";
                "comment.png" := "bubble" ]}.

Definition odd_configs : state :=
  state_with {[ "null.yaml" := "feeds:";
                "text.yaml" := "feeds: AD";
                "twice.yaml" := "feeds: [A, A]" ]}.

End Demo2.

Ltac run_monad :=
  unfold mbind, mret, es_mbind, es_mret, es_bind, es_ret, lift, raise,
    modify, get_state; simpl.

Section LoopLemmas.

Context (E : externals).

Lemma item_loop_run (items : list (tag E)) (articles : list string) :
  for_each items (fun item =>
    let link_tag := tag_find E item "link" in
    match link_tag with
    | Some t =>
        if str_truthy (tag_text E t)
        then modify (fun articles => (articles ++ [tag_text E t])%list)
        else mret tt
    | None => mret tt
    end) articles
  = (Ok tt, (articles ++ (items ≫= item_link E))%list).
Proof.
  revert articles.
  induction items as [|item items IH]; intros articles; simpl.
  - by rewrite app_nil_r.
  - run_monad. unfold item_link at 1.
    destruct (tag_find E item "link") as [t|]; simpl.
    + destruct (str_truthy (tag_text E t)); simpl.
      * rewrite IH. by rewrite <- app_assoc.
      * by rewrite IH.
    + by rewrite IH.
Qed.

Lemma feed_body_run (timeout : Z) (feed : pyval) (articles : list string) :
  feed_body E timeout feed articles
  = (Ok tt, (articles ++ feed_links E timeout feed)%list).
Proof.
  unfold feed_body, try_except, feed_links. run_monad.
  destruct (requests_get E feed timeout) as [response|e]; simpl.
  - destruct (BeautifulSoup E (content response) "xml") as [sp|e]; simpl.
    + by rewrite item_loop_run.
    + by rewrite app_nil_r.
  - by rewrite app_nil_r.
Qed.

Lemma feed_loop_run (timeout : Z) (feeds : list pyval) (articles : list string) :
  for_each feeds (feed_body E timeout) articles
  = (Ok tt, (articles ++ (feeds ≫= feed_links E timeout))%list).
Proof.
  revert articles.
  induction feeds as [|feed feeds IH]; intros articles; simpl.
  - by rewrite app_nil_r.
  - run_monad. rewrite feed_body_run, IH. by rewrite <- app_assoc.
Qed.

Lemma article_body_run (url : string) (data : list row) :
  article_body E url data
  = (Ok tt, (data ++ option_list (article_record E url))%list).
Proof.
  unfold article_body, try_except, article_record. run_monad.
  destruct (article_download E url) as [html|e]; simpl.
  - destruct (article_parse E url html) as [article_text|e]; simpl.
    + destruct (article_nlp E url article_text) as [keywords|e]; simpl.
      * done.
      * by rewrite app_nil_r.
    + by rewrite app_nil_r.
  - by rewrite app_nil_r.
Qed.

Lemma article_loop_run (urls : list string) (data : list row) :
  for_each urls (article_body E) data
  = (Ok tt, (data ++ omap (article_record E) urls)%list).
Proof.
  revert data.
  induction urls as [|url urls IH]; intros data; simpl.
  - by rewrite app_nil_r.
  - run_monad. rewrite article_body_run, IH. rewrite <- app_assoc.
    by destruct (article_record E url).
Qed.

End LoopLemmas.

Section CollectLemmas.

Context (E : externals).

Lemma collect_news_articles_run (path : string) (today : date)
    (output_csv : bool) (timeout : Z) (s : state) :
  collect_news_articles E path today output_csv timeout s =
  match load_feeds E path s with
  | Raise e => (Raise e, s)
  | Ok feeds =>
      let df := news_frame E timeout feeds in
      (Ok df,
       if output_csv
       then set_files (insert (news_csv today) (csv_data E df)) s
       else s)
  end.
Proof.
  unfold collect_news_articles, load_feeds, open_read. run_monad.
  destruct (files s !! path) as [f|]; simpl; [|done].
  destruct (yaml_safe_load E f) as [feed_file|e]; simpl; [|done].
  destruct (dict_get feed_file "feeds" (PyList [])) as [fv|e]; simpl; [|done].
  destruct (py_iter fv) as [feeds|e]; simpl; [|done].
  unfold run_local. rewrite feed_loop_run. run_monad.
  rewrite article_loop_run. run_monad.
  destruct output_csv; done.
Qed.

Lemma article_record_URL (url : string) (r : row) :
  article_record E url = Some r -> row_URL r = url.
Proof.
  unfold article_record. intros H.
  destruct (article_download E url) as [html|]; [|done].
  destruct (article_parse E url html) as [t|]; [|done].
  destruct (article_nlp E url t) as [k|]; [|done].
  by inversion H.
Qed.

Lemma article_record_succeeds (url : string) :
  is_Some (article_record E url) <-> all_stages_succeed E url = true.
Proof.
  unfold article_record, all_stages_succeed.
  destruct (article_download E url) as [html|]; simpl.
  - destruct (article_parse E url html) as [t|]; simpl.
    + destruct (article_nlp E url t) as [k|]; simpl.
      * split; [done | by eexists].
      * split; [by intros [? ?] | done].
    + split; [by intros [? ?] | done].
  - split; [by intros [? ?] | done].
Qed.

Lemma omap_article_record_URL (urls : list string) :
  row_URL <$> omap (article_record E) urls
  = filter (fun url => all_stages_succeed E url = true) urls.
Proof.
  induction urls as [|url urls IH]; [done|].
  rewrite filter_cons. cbn [omap list_omap].
  destruct (article_record E url) as [r|] eqn:Hr.
  - rewrite decide_True.
    + rewrite fmap_cons, IH. f_equal. by apply article_record_URL.
    + apply article_record_succeeds. by eexists.
  - rewrite decide_False; [done|].
    intros Hs. apply article_record_succeeds in Hs.
    destruct Hs as [r Hs]. congruence.
Qed.

Lemma item_link_nonempty (item : tag E) (url : string) :
  url ∈ item_link E item -> url <> "".
Proof.
  unfold item_link.
  destruct (tag_find E item "link") as [t|]; [|by intros ?%elem_of_nil].
  destruct (tag_text E t) as [|c rest] eqn:Ht; simpl.
  - by intros ?%elem_of_nil.
  - intros Hin%list_elem_of_singleton. by subst.
Qed.

Lemma feed_links_nonempty (timeout : Z) (feed : pyval) (url : string) :
  url ∈ feed_links E timeout feed -> url <> "".
Proof.
  unfold feed_links.
  destruct (requests_get E feed timeout) as [response|]; [|by intros ?%elem_of_nil].
  destruct (BeautifulSoup E (content response) "xml") as [sp|];
    [|by intros ?%elem_of_nil].
  intros Hin%list_elem_of_bind. destruct Hin as (item & Hin & _).
  by eapply item_link_nonempty.
Qed.

Lemma feed_fails_no_links (timeout : Z) (feed : pyval) :
  feed_fails E timeout feed = true -> feed_links E timeout feed = [].
Proof.
  unfold feed_fails, feed_links.
  destruct (requests_get E feed timeout) as [response|]; [|done].
  by destruct (BeautifulSoup E (content response) "xml").
Qed.

End CollectLemmas.


(** ** The renderer *)

Section RendererLemmas.

Context (E : externals).

(** Without a mask image the call lays the words out, saves the figure
    and does nothing else. *)
Lemma generate_wordcloud_no_mask (a : wordcloud_args) (s : state) :
  opt_str_truthy (mask_image a) = false ->
  generate_wordcloud E a s =
  match wordcloud_layout E (params_of E a None) (seed_of a s).1 (text a) with
  | Ok wordcloud =>
      (Ok tt,
       set_files (insert (output_file a) (plt_savefig E (figsize a) wordcloud))
         (seed_of a s).2)
  | Raise e => (Raise e, (seed_of a s).2)
  end.
Proof.
  intros Hmask. unfold generate_wordcloud, seed_of, params_of, output_file, write_file.
  rewrite Hmask. run_monad.
  destruct (random_state a) as [seed|]; simpl.
  - by destruct (wordcloud_layout E _ seed (text a)).
  - unfold fresh_seed. run_monad.
    by destruct (wordcloud_layout E _ _ (text a)).
Qed.

End RendererLemmas.

(** ** The NLTK resource check *)

(** C9: when the NLTK lookup of a resource ends in a [LookupError],
    [check_nltk_resource] returns after asking the downloader for the
    literal name ["resource_name"], whatever resource was requested: the
    one request added is that literal, and nothing else changes. *)
Theorem check_nltk_resource_downloads_literal
    (E : externals) (resource_name : string) (s : state) :
  nltk_lookup_fails E resource_name = true ->
  check_nltk_resource E resource_name s
  = (Ok tt, set_nltk_downloads (fun ds => (ds ++ ["resource_name"])%list) s).
Proof.
  unfold nltk_lookup_fails, check_nltk_resource, try_except, nltk_download, print.
  intros Hfail. run_monad.
  destruct (nltk_data_find E ("tokenizers/" ++ resource_name ++ ".zip")) as [u|e];
    simpl in *; [done|].
  destruct e; simpl in *; try done;
    destruct (nltk_data_find E ("tokenizers/" ++ resource_name)) as [u|e'];
    simpl in *; try done; destruct e'; simpl in *; done.
Qed.

Lemma check_nltk_resource_downloads_literal_witness :
  nltk_lookup_fails Demo.env "punkt_tab" = true
  /\ nltk_downloads (check_nltk_resource Demo.env "punkt_tab" Demo.start).2
     = ["resource_name"].
Proof.
  split; [reflexivity|].
  rewrite (check_nltk_resource_downloads_literal Demo.env "punkt_tab" Demo.start);
    reflexivity.
Defined.

(** ** The config file *)

Lemma load_feeds_not_mapping (E : externals) (path : string) (s : state)
    (f : string) (feed_file : pyval) :
  files s !! path = Some f ->
  yaml_safe_load E f = Ok feed_file ->
  is_dict feed_file = false ->
  load_feeds E path s = Raise AttributeError.
Proof.
  intros Hf Hy Hd. unfold load_feeds. rewrite Hf, Hy.
  by destruct feed_file.
Qed.

(** C10: a config file that is read and parsed but whose value is not a
    mapping (an empty file parses to [None]) makes [collect_news_articles]
    raise [AttributeError] at the lookup of the feeds key; nothing is
    fetched or written, and no dataset is returned. *)
Theorem collect_news_articles_not_mapping
    (E : externals) (path : string) (today : date) (output_csv : bool)
    (timeout : Z) (s : state) (f : string) (feed_file : pyval) :
  files s !! path = Some f ->
  yaml_safe_load E f = Ok feed_file ->
  is_dict feed_file = false ->
  collect_news_articles E path today output_csv timeout s = (Raise AttributeError, s).
Proof.
  intros Hf Hy Hd. rewrite collect_news_articles_run.
  by rewrite (load_feeds_not_mapping E path s f feed_file).
Qed.

Lemma collect_news_articles_not_mapping_witness :
  files Demo.start !! "empty.yaml" = Some ""
  /\ yaml_safe_load Demo.env "" = Ok PyNone
  /\ collect_news_articles Demo.env "empty.yaml" (clock Demo.start) true 15 Demo.start
     = (Raise AttributeError, Demo.start).
Proof.
  split; [reflexivity|]. split; [reflexivity|].
  apply (collect_news_articles_not_mapping Demo.env "empty.yaml" (clock Demo.start)
           true 15 Demo.start "" PyNone); reflexivity.
Defined.

(** C5, as stated, fails on a config file whose parse is not a mapping:
    the file is read and parsed, it has no feeds key, and the call raises. *)
Lemma config_without_feeds_key_counterexample :
  files Demo.start !! "empty.yaml" = Some ""
  /\ yaml_safe_load Demo.env "" = Ok PyNone
  /\ has_key PyNone "feeds" = false
  /\ (collect_news_articles Demo.env "empty.yaml" (clock Demo.start) true 15 Demo.start).1
     = Raise AttributeError.
Proof. repeat split; reflexivity. Qed.

(** C5 (amended): for a config file that is read and parses to a mapping
    without the feeds key, the feed collection is empty and
    [collect_news_articles] returns the empty dataset; a file that cannot
    be read, or that does not parse, makes the call raise that error with
    nothing caught. *)
Theorem collect_news_articles_config
    (E : externals) (path : string) (today : date) (output_csv : bool)
    (timeout : Z) (s : state) :
  (forall f d,
     files s !! path = Some f ->
     yaml_safe_load E f = Ok (PyDict d) ->
     dict_lookup d "feeds" = None ->
     load_feeds E path s = Ok []
     /\ exists s',
          collect_news_articles E path today output_csv timeout s
          = (Ok {| columns := ["URL"; "Keywords"; "Text"]; rows := [] |}, s'))
  /\ (files s !! path = None ->
      collect_news_articles E path today output_csv timeout s
      = (Raise FileNotFoundError, s))
  /\ (forall f e,
        files s !! path = Some f ->
        yaml_safe_load E f = Raise e ->
        collect_news_articles E path today output_csv timeout s = (Raise e, s)).
Proof.
  split; [|split].
  - intros f d Hf Hy Hk.
    assert (load_feeds E path s = Ok []) as Hl.
    { unfold load_feeds. rewrite Hf, Hy. simpl. by rewrite Hk. }
    split; [done|].
    rewrite collect_news_articles_run, Hl. by eexists.
  - intros Hf. rewrite collect_news_articles_run. unfold load_feeds. by rewrite Hf.
  - intros f e Hf Hy. rewrite collect_news_articles_run. unfold load_feeds.
    by rewrite Hf, Hy.
Qed.

Lemma collect_news_articles_config_witness :
  (load_feeds Demo.env "other.yaml" Demo.start = Ok []
   /\ exists s',
        collect_news_articles Demo.env "other.yaml" (clock Demo.start) false 15 Demo.start
        = (Ok {| columns := ["URL"; "Keywords"; "Text"]; rows := [] |}, s'))
  /\ collect_news_articles Demo.env "missing.yaml" (clock Demo.start) false 15 Demo.start
     = (Raise FileNotFoundError, Demo.start)
  /\ collect_news_articles Demo.env "broken.yaml" (clock Demo.start) false 15 Demo.start
     = (Raise YAMLError, Demo.start).
Proof.
  destruct (collect_news_articles_config Demo.env "other.yaml" (clock Demo.start)
              false 15 Demo.start) as (Hkey & _ & _).
  destruct (collect_news_articles_config Demo.env "missing.yaml" (clock Demo.start)
              false 15 Demo.start) as (_ & Hread & _).
  destruct (collect_news_articles_config Demo.env "broken.yaml" (clock Demo.start)
              false 15 Demo.start) as (_ & _ & Hparse).
  split; [|split].
  - apply (Hkey "sources: [A]" [("sources", PyList [PyStr "A"])]); reflexivity.
  - apply Hread. reflexivity.
  - apply (Hparse "feeds: ["); reflexivity.
Defined.

(** ** The feed collector *)

(** C3, as stated, fails for a malformed response: the parser may take a
    document whose tags are not closed without raising, and the links of
    the items it recovers are kept. *)
Lemma malformed_feed_counterexample :
  requests_get Lenient.env (PyStr "T") 15
    = Ok {| status_code := 200; content := Lenient.truncated |}
  /\ tags_balanced Lenient.truncated = false
  /\ tags_balanced (Lenient.truncated ++ "</channel></rss>") = true
  /\ is_ok (BeautifulSoup Lenient.env Lenient.truncated "xml") = true
  /\ feed_fails Lenient.env 15 (PyStr "T") = false
  /\ feed_body Lenient.env 15 (PyStr "T") ["http://seen/0"]
     = (Ok tt, ["http://seen/0"; "http://a/1"; "http://a/2"]).
Proof. repeat split; reflexivity. Qed.

(** C3 (amended): a feed whose fetch or parse raises an exception adds
    nothing to [articles], and its exception does not leave the loop: the
    loop over the feeds ends normally, with the result it has without that
    feed. *)
Theorem failed_feed_is_skipped
    (E : externals) (timeout : Z) (feed : pyval) :
  feed_fails E timeout feed = true ->
  (forall articles : list string,
     feed_body E timeout feed articles = (Ok tt, articles))
  /\ (forall (before after : list pyval) (articles : list string),
        (for_each (before ++ feed :: after) (feed_body E timeout) articles).1 = Ok tt
        /\ for_each (before ++ feed :: after) (feed_body E timeout) articles
           = for_each (before ++ after) (feed_body E timeout) articles).
Proof.
  intros Hfail. apply feed_fails_no_links in Hfail. split.
  - intros articles. by rewrite feed_body_run, Hfail, app_nil_r.
  - intros before after articles. rewrite !feed_loop_run. split; [done|].
    rewrite !bind_app, bind_cons, Hfail. done.
Qed.

Lemma failed_feed_is_skipped_witness :
  (feed_fails Demo.env 15 (PyStr "B") = true
   /\ requests_get Demo.env (PyStr "B") 15 = Raise RequestException
   /\ feed_body Demo.env 15 (PyStr "B") ["http://a/1"] = (Ok tt, ["http://a/1"]))
  /\ for_each [PyStr "A"; PyStr "B"; PyStr "A"] (feed_body Demo.env 15) []
     = for_each [PyStr "A"; PyStr "A"] (feed_body Demo.env 15) [].
Proof.
  split; [split; [reflexivity|split; [reflexivity|]]|].
  - apply (failed_feed_is_skipped Demo.env 15 (PyStr "B")). reflexivity.
  - apply (proj2 (failed_feed_is_skipped Demo.env 15 (PyStr "B") eq_refl)
             [PyStr "A"] [PyStr "A"] []).
Defined.

(** ** The article fetcher and the dataset *)

(** C4: when the config loads and the feed loop has collected [urls], the
    dataset [collect_news_articles] returns has, in the order of [urls],
    one row (URL, Keywords, Text) for each URL whose download, parse and
    keyword extraction all succeed and none for the others; its size is
    the number of such URLs. *)
Theorem dataset_rows_are_successful_articles
    (E : externals) (path : string) (today : date) (output_csv : bool)
    (timeout : Z) (s : state) (feeds : list pyval) (urls : list string) :
  load_feeds E path s = Ok feeds ->
  for_each feeds (feed_body E timeout) [] = (Ok tt, urls) ->
  exists df s',
    collect_news_articles E path today output_csv timeout s = (Ok df, s')
    /\ columns df = ["URL"; "Keywords"; "Text"]
    /\ rows df = omap (article_record E) urls
    /\ row_URL <$> rows df = filter (fun url => all_stages_succeed E url = true) urls
    /\ length (rows df)
       = length (filter (fun url => all_stages_succeed E url = true) urls).
Proof.
  intros Hl Hfeeds. rewrite feed_loop_run in Hfeeds. simpl in Hfeeds.
  injection Hfeeds as <-.
  rewrite collect_news_articles_run, Hl. simpl.
  eexists _, _. split; [reflexivity|]. simpl. unfold dataset.
  split; [done|]. split; [done|].
  split; [apply omap_article_record_URL|].
  by rewrite <- omap_article_record_URL, length_fmap.
Qed.

Lemma dataset_rows_are_successful_articles_witness :
  load_feeds Demo.env "feeds.yaml" Demo.start = Ok [PyStr "A"; PyStr "B"; PyStr "C"]
  /\ for_each [PyStr "A"; PyStr "B"; PyStr "C"] (feed_body Demo.env 15) []
     = (Ok tt, ["http://a/1"; "http://a/2"; "http://a/3"])
  /\ exists df s',
       collect_news_articles Demo.env "feeds.yaml" (clock Demo.start) false 15 Demo.start
       = (Ok df, s')
       /\ columns df = ["URL"; "Keywords"; "Text"]
       /\ rows df = omap (article_record Demo.env) ["http://a/1"; "http://a/2"; "http://a/3"]
       /\ row_URL <$> rows df
          = filter (fun url => all_stages_succeed Demo.env url = true)
              ["http://a/1"; "http://a/2"; "http://a/3"]
       /\ length (rows df)
          = length (filter (fun url => all_stages_succeed Demo.env url = true)
                      ["http://a/1"; "http://a/2"; "http://a/3"]).
Proof.
  split; [reflexivity|]. split; [reflexivity|].
  apply (dataset_rows_are_successful_articles Demo.env "feeds.yaml" (clock Demo.start)
           false 15 Demo.start [PyStr "A"; PyStr "B"; PyStr "C"]
           ["http://a/1"; "http://a/2"; "http://a/3"]); reflexivity.
Defined.

Example demo_dataset :
  (collect_news_articles Demo.env "feeds.yaml" (clock Demo.start) false 15 Demo.start).1
  = Ok {| columns := ["URL"; "Keywords"; "Text"];
          rows := [("http://a/1", ["storm"; "coast"], "storm hits coast");
                   ("http://a/3", [], "")] |}.
Proof. reflexivity. Qed.

(** C6: when the config loads, CSV output is on, and the two loops leave
    no row (every feed or article failed), [collect_news_articles] returns
    the empty dataset and the archival file holds one line, the header
    URL, Keywords, Text. *)
Theorem empty_dataset_writes_header
    (E : externals) (path : string) (today : date) (timeout : Z) (s : state)
    (feeds : list pyval) (urls : list string) :
  load_feeds E path s = Ok feeds ->
  for_each feeds (feed_body E timeout) [] = (Ok tt, urls) ->
  for_each urls (article_body E) [] = (Ok tt, []) ->
  exists s',
    collect_news_articles E path today true timeout s
    = (Ok {| columns := ["URL"; "Keywords"; "Text"]; rows := [] |}, s')
    /\ files s' !! (strftime_m_d_y today ++ "_news.csv")
       = Some (csv_line E ["URL"; "Keywords"; "Text"]).
Proof.
  intros Hl Hfeeds Harticles.
  rewrite feed_loop_run in Hfeeds. simpl in Hfeeds. injection Hfeeds as <-.
  rewrite article_loop_run in Harticles. simpl in Harticles.
  injection Harticles as Hrows.
  rewrite collect_news_articles_run, Hl. simpl.
  unfold news_frame, dataset. rewrite Hrows.
  eexists. split; [reflexivity|].
  unfold set_files, csv_data, news_csv. simpl.
  by rewrite lookup_insert_eq.
Qed.

Lemma empty_dataset_writes_header_witness :
  load_feeds Demo.env "down.yaml" Demo.start = Ok [PyStr "B"]
  /\ for_each [PyStr "B"] (feed_body Demo.env 15) [] = (Ok tt, [])
  /\ exists s',
       collect_news_articles Demo.env "down.yaml" (clock Demo.start) true 15 Demo.start
       = (Ok {| columns := ["URL"; "Keywords"; "Text"]; rows := [] |}, s')
       /\ files s' !! (strftime_m_d_y (clock Demo.start) ++ "_news.csv")
          = Some (csv_line Demo.env ["URL"; "Keywords"; "Text"]).
Proof.
  split; [reflexivity|]. split; [reflexivity|].
  apply (empty_dataset_writes_header Demo.env "down.yaml" (clock Demo.start) 15
           Demo.start [PyStr "B"] []); reflexivity.
Defined.

Example demo_header_only_file :
  files (collect_news_articles Demo.env "down.yaml" (clock Demo.start) true 15
           Demo.start).2 !! "03_09_26_news.csv"
  = Some ("URL,Keywords,Text" ++ Demo.newline).
Proof. reflexivity. Qed.

(** C7: every row of the dataset [collect_news_articles] returns has a URL
    that is not the empty string, and is the record of an article whose
    download, parse and keyword extraction all succeeded.  (Its keywords
    and text may be empty: [demo_dataset] has such a row.) *)
Theorem dataset_rows_have_url
    (E : externals) (path : string) (today : date) (output_csv : bool)
    (timeout : Z) (s s' : state) (df : DataFrame) :
  collect_news_articles E path today output_csv timeout s = (Ok df, s') ->
  Forall (fun r => row_URL r <> ""
                   /\ all_stages_succeed E (row_URL r) = true
                   /\ article_record E (row_URL r) = Some r)
    (rows df).
Proof.
  rewrite collect_news_articles_run.
  destruct (load_feeds E path s) as [feeds|e]; [|done].
  simpl. intros Hrun. injection Hrun as <- _. simpl.
  apply Forall_forall. intros r Hr. unfold dataset in Hr.
  apply list_elem_of_omap in Hr. destruct Hr as (url & Hurl & Hrec).
  pose proof (article_record_URL E url r Hrec) as Heq. rewrite Heq.
  apply list_elem_of_bind in Hurl. destruct Hurl as (feed & Hin & _).
  split; [by eapply feed_links_nonempty|].
  split; [|done].
  apply article_record_succeeds. by eexists.
Qed.

Lemma dataset_rows_have_url_witness :
  exists df s',
    collect_news_articles Demo.env "feeds.yaml" (clock Demo.start) true 15 Demo.start
    = (Ok df, s')
    /\ ("http://a/3", [], "") ∈ rows df
    /\ Forall (fun r => row_URL r <> ""
                        /\ all_stages_succeed Demo.env (row_URL r) = true
                        /\ article_record Demo.env (row_URL r) = Some r)
         (rows df).
Proof.
  exists {| columns := ["URL"; "Keywords"; "Text"];
            rows := [("http://a/1", ["storm"; "coast"], "storm hits coast");
                     ("http://a/3", [], "")] |},
    (collect_news_articles Demo.env "feeds.yaml" (clock Demo.start) true 15
       Demo.start).2.
  assert (collect_news_articles Demo.env "feeds.yaml" (clock Demo.start) true 15
            Demo.start
          = (Ok {| columns := ["URL"; "Keywords"; "Text"];
                   rows := [("http://a/1", ["storm"; "coast"], "storm hits coast");
                            ("http://a/3", [], "")] |},
             (collect_news_articles Demo.env "feeds.yaml" (clock Demo.start) true 15
                Demo.start).2)) as Hrun by reflexivity.
  split; [exact Hrun|]. split.
  - apply list_elem_of_In. right. left. reflexivity.
  - exact (dataset_rows_have_url Demo.env "feeds.yaml" (clock Demo.start) true 15
             Demo.start _ _ Hrun).
Defined.

(** ** The renderer: recolouring without a mask, and seeded runs *)

(** C1, as stated, fails: a call with [recolor_from_mask] set and no mask
    image is not rejected; it returns normally and leaves its image. *)
Lemma recolor_without_mask_counterexample :
  recolor_from_mask Demo.plain_call = true
  /\ mask_image Demo.plain_call = None
  /\ (generate_wordcloud Demo.env Demo.plain_call Demo.start).1 = Ok tt
  /\ output_image Demo.env Demo.plain_call Demo.start = Some "PNG storm coast [even]".
Proof. repeat split; reflexivity. Qed.

(** C1 (amended): a call with [recolor_from_mask] set and no mask image is
    not rejected: the flag is ignored, and the call does exactly what the
    same call with the flag off does. *)
Theorem recolor_without_mask_is_ignored
    (E : externals) (a : wordcloud_args) (s : state) :
  recolor_from_mask a = true ->
  mask_image a = None ->
  generate_wordcloud E a s
  = generate_wordcloud E (with_recolor_from_mask false a) s.
Proof.
  intros _ Hmask.
  rewrite !generate_wordcloud_no_mask by (simpl; by rewrite Hmask). done.
Qed.

Lemma recolor_without_mask_is_ignored_witness :
  recolor_from_mask Demo.plain_call = true
  /\ mask_image Demo.plain_call = None
  /\ generate_wordcloud Demo.env Demo.plain_call Demo.start
     = generate_wordcloud Demo.env (with_recolor_from_mask false Demo.plain_call)
         Demo.start.
Proof.
  split; [reflexivity|]. split; [reflexivity|].
  apply (recolor_without_mask_is_ignored Demo.env Demo.plain_call Demo.start);
    reflexivity.
Defined.



(** Without a seed the image depends on the entropy drawn. *)
Example unseeded_render_depends_on_entropy :
  output_image Demo.env Demo.plain_call Demo.start
  <> output_image Demo.env Demo.plain_call Demo.later_state.
Proof. vm_compute. discriminate. Qed.

(** ** The script body *)

(** The four renderer calls of [main] are those of [main_calls], run in
    order on the text joined from the dataset's keywords. *)
Lemma main_runs_main_calls (E : externals) (s : state) :
  main E s =
  (check_nltk_resource E "punkt_tab" ;;
   s0 ← get_state;
   df ← collect_news_articles E "feeds.yaml" (clock s0) true 15;
   for_each (main_calls E (String.concat " " (concat (df_Keywords df))) (clock s0))
     (generate_wordcloud E)) s.
Proof.
  unfold main, main_calls. run_monad.
  destruct (check_nltk_resource E "punkt_tab" s) as [[[]|e] s1]; [|done].
  destruct (collect_news_articles E "feeds.yaml" (clock s1) true 15 s1)
    as [[df|e] s2]; [|done].
  run_monad.
  repeat match goal with
  | |- context [generate_wordcloud E ?a ?st] =>
      destruct (generate_wordcloud E a st) as [[[]|?] ?]; simpl; try done
  end.
Qed.

(** The plain call leaves every keyword argument but [stopwords] and
    [figsize] at its default. *)
Lemma original_wordcloud_defaults (E : externals) (text : string) (today : date) :
  original_wordcloud text today (STOPWORDS E)
  = wordcloud_defaults E text "original_wordcloud" today.
Proof. reflexivity. Qed.

(** C2: the script builds one stopword set, the library's default set
    together with the extra publisher terms, and passes it to the plain
    call and to the two mask-recoloured calls; the colormap-styled call is
    passed the library's [STOPWORDS] instead, which differs from the built
    set as soon as one extra term (say "globalnews") is not a default
    stopword. *)
Theorem main_calls_stopwords (E : externals) (text : string) (today : date) :
  stopwords <$> main_calls E text today
  = [main_stopwords E; main_stopwords E; main_stopwords E; STOPWORDS E]
  /\ (forall w, w ∈ main_stopwords E <-> w ∈ STOPWORDS E \/ w ∈ extra_stopwords)
  /\ ("globalnews" ∉ STOPWORDS E ->
      stopwords (modern_wordcloud E text today) <> main_stopwords E).
Proof.
  split; [done|]. split.
  - intros w. unfold main_stopwords.
    rewrite elem_of_union, elem_of_list_to_set. done.
  - intros Hnot Heq. apply Hnot.
    change (stopwords (modern_wordcloud E text today)) with (STOPWORDS E) in Heq.
    rewrite Heq. unfold main_stopwords, extra_stopwords.
    apply elem_of_union_r, elem_of_list_to_set, list_elem_of_In. by left.
Qed.

Lemma main_calls_stopwords_witness :
  ("globalnews" ∉ STOPWORDS Demo.env)
  /\ stopwords (modern_wordcloud Demo.env "storm coast" (clock Demo.start))
     <> main_stopwords Demo.env.
Proof.
  assert ("globalnews" ∉ STOPWORDS Demo.env) as Hnot.
  { simpl. rewrite !elem_of_union, !elem_of_singleton. intros [[H|H]|H]; discriminate. }
  split; [exact Hnot|].
  destruct (main_calls_stopwords Demo.env "storm coast" (clock Demo.start))
    as (_ & _ & Hdiff).
  exact (Hdiff Hnot).
Defined.

(** * Further properties of the script *)

(** ** Shared lemmas *)

Lemma for_each_app {St A} (xs ys : list A) (body : A -> exc_state St unit) (s : St) :
  for_each (xs ++ ys) body s =
  match for_each xs body s with
  | (Ok _, s') => for_each ys body s'
  | (Raise e, s') => (Raise e, s')
  end.
Proof.
  revert s. induction xs as [|x xs IH]; intros s; [done|].
  simpl. run_monad. destruct (body x s) as [[[]|e] s1]; [apply IH | done].
Qed.

Lemma string_app_nil_r (x : string) : x ++ "" = x.
Proof.
  induction x as [|c x IH]; [done|].
  change (String c (x ++ "") = String c x). by f_equal.
Qed.

Lemma string_length_app (x y : string) :
  String.length (x ++ y) = String.length x + String.length y.
Proof.
  induction x as [|c x IH]; [done|].
  change (S (String.length (x ++ y)) = S (String.length x + String.length y)).
  by f_equal.
Qed.

Lemma string_concat_cons (x : string) (l : list string) :
  String.concat "" (x :: l) = x ++ String.concat "" l.
Proof.
  destruct l as [|y l]; [|done].
  change (x = x ++ ""). by rewrite string_app_nil_r.
Qed.

Lemma check_nltk_resource_cases (E : externals) (resource_name : string) (s : state) :
  check_nltk_resource E resource_name s
  = (Ok tt, set_stdout (fun out => (out ++ [installed_message resource_name])%list) s)
  \/ check_nltk_resource E resource_name s
     = (Ok tt, set_nltk_downloads (fun ds => (ds ++ ["resource_name"])%list) s)
  \/ exists e, check_nltk_resource E resource_name s = (Raise e, s).
Proof.
  unfold check_nltk_resource, try_except, nltk_download, print, installed_message.
  run_monad.
  destruct (nltk_data_find E ("tokenizers/" ++ resource_name ++ ".zip")) as [u|e];
    simpl; [by left|].
  destruct e; simpl; try (by right; left);
    destruct (nltk_data_find E ("tokenizers/" ++ resource_name)) as [u|e'];
    simpl; try (by left);
    destruct e'; simpl; try (by right; left); right; right; by eexists.
Qed.

(** ** The NLTK resource check, in every case *)

(** X1: whatever the lookups answer, [check_nltk_resource] leaves the
    files alone and asks the downloader for nothing or for the one literal
    name ["resource_name"]. *)
Theorem check_nltk_resource_requests
    (E : externals) (resource_name : string) (s : state) :
  files (check_nltk_resource E resource_name s).2 = files s
  /\ (nltk_downloads (check_nltk_resource E resource_name s).2 = nltk_downloads s
      \/ nltk_downloads (check_nltk_resource E resource_name s).2
         = (nltk_downloads s ++ ["resource_name"])%list).
Proof.
  destruct (check_nltk_resource_cases E resource_name s) as [H|[H|[e H]]];
    rewrite H; simpl; auto.
Qed.

(** X2: when a lookup finds the resource (the zip file, or the unpacked
    directory after an exception that is not a [LookupError]), the call
    returns after printing that the resource is installed, and asks the
    downloader for nothing. *)
Theorem check_nltk_resource_installed
    (E : externals) (resource_name : string) (s : state) :
  nltk_lookup_finds E resource_name = true ->
  check_nltk_resource E resource_name s
  = (Ok tt, set_stdout (fun out => (out ++ [installed_message resource_name])%list) s).
Proof.
  unfold nltk_lookup_finds, check_nltk_resource, try_except, nltk_download, print,
    installed_message.
  intros Hfind. run_monad.
  destruct (nltk_data_find E ("tokenizers/" ++ resource_name ++ ".zip")) as [u|e];
    simpl in *; [done|].
  destruct e; simpl in *; try done;
    destruct (nltk_data_find E ("tokenizers/" ++ resource_name)) as [u|e'];
    simpl in *; done.
Qed.

Lemma check_nltk_resource_installed_witness :
  nltk_lookup_finds Demo2.env "punkt_tab" = true
  /\ (check_nltk_resource Demo2.env "punkt_tab" Demo.start).1 = Ok tt
  /\ stdout (check_nltk_resource Demo2.env "punkt_tab" Demo.start).2
     = [installed_message "punkt_tab"]
  /\ nltk_downloads (check_nltk_resource Demo2.env "punkt_tab" Demo.start).2 = [].
Proof.
  split; [reflexivity|].
  rewrite (check_nltk_resource_installed Demo2.env "punkt_tab" Demo.start eq_refl).
  repeat split.
Defined.

(** X3: when the first lookup raises an exception that is not a
    [LookupError] and the second lookup raises another such exception, that
    second exception leaves [check_nltk_resource]; nothing is printed or
    requested. *)
Theorem check_nltk_resource_propagates
    (E : externals) (resource_name : string) (s : state) (e e' : exception) :
  nltk_data_find E ("tokenizers/" ++ resource_name ++ ".zip") = Raise e ->
  isinstance e LookupError_cls = false ->
  nltk_data_find E ("tokenizers/" ++ resource_name) = Raise e' ->
  isinstance e' LookupError_cls = false ->
  check_nltk_resource E resource_name s = (Raise e', s).
Proof.
  unfold check_nltk_resource, try_except, nltk_download, print.
  intros H1 He H2 He'. run_monad. rewrite H1.
  destruct e; simpl in *; try done; rewrite H2;
    destruct e'; simpl in *; done.
Qed.

Lemma check_nltk_resource_propagates_witness :
  check_nltk_resource Demo2.env "damaged" Demo.start = (Raise ValueError, Demo.start).
Proof.
  apply (check_nltk_resource_propagates Demo2.env "damaged" Demo.start OSError
           ValueError); reflexivity.
Defined.

Lemma generate_wordcloud_effect (E : externals) (a : wordcloud_args) (s : state) :
  stdout (generate_wordcloud E a s).2 = stdout s
  /\ nltk_downloads (generate_wordcloud E a s).2 = nltk_downloads s
  /\ clock (generate_wordcloud E a s).2 = clock s
  /\ match (generate_wordcloud E a s).1 with
     | Ok _ => exists img,
         files (generate_wordcloud E a s).2 = <[output_file a := img]> (files s)
     | Raise _ => files (generate_wordcloud E a s).2 = files s
     end.
Proof.
  unfold generate_wordcloud, open_read, write_file, fresh_seed, output_file.
  run_monad.
  repeat (case_match; simpl in *; simplify_eq; simpl); eauto 10.
Qed.

(** ** The collector, beyond its failures *)

(** X4: a config that cannot be loaded into a list of feeds makes
    [collect_news_articles] raise that error with no effect, and with
    [output_csv] off nothing else makes it raise: a feed or an article
    that fails never does. *)
Theorem collect_news_articles_raises_on_config_only
    (E : externals) (path : string) (today : date) (output_csv : bool)
    (timeout : Z) (s : state) (e : exception) :
  (load_feeds E path s = Raise e ->
   collect_news_articles E path today output_csv timeout s = (Raise e, s))
  /\ ((collect_news_articles E path today false timeout s).1 = Raise e
      <-> load_feeds E path s = Raise e).
Proof.
  rewrite !collect_news_articles_run.
  destruct (load_feeds E path s) as [feeds|e0]; simpl.
  - split; [|split]; intros; done.
  - split; [|split]; intros; congruence.
Qed.

(** X5: a config whose feeds key is bound to a value that cannot be
    iterated (nothing after the key, a boolean, a number) makes the call
    raise [TypeError] with no effect. *)
Theorem collect_news_articles_feeds_not_iterable
    (E : externals) (path : string) (today : date) (output_csv : bool)
    (timeout : Z) (s : state) (f : string) (d : list (string * pyval)) (v : pyval) :
  files s !! path = Some f ->
  yaml_safe_load E f = Ok (PyDict d) ->
  dict_lookup d "feeds" = Some v ->
  (v = PyNone \/ (exists b, v = PyBool b) \/ (exists z, v = PyInt z)) ->
  collect_news_articles E path today output_csv timeout s = (Raise TypeError, s).
Proof.
  intros Hf Hy Hk Hv. rewrite collect_news_articles_run. unfold load_feeds.
  rewrite Hf, Hy. simpl. rewrite Hk.
  by destruct Hv as [->|[[b ->]|[z ->]]].
Qed.

Lemma collect_news_articles_feeds_not_iterable_witness :
  collect_news_articles Demo2.env "null.yaml" (clock Demo2.odd_configs) true 15
    Demo2.odd_configs
  = (Raise TypeError, Demo2.odd_configs).
Proof.
  apply (collect_news_articles_feeds_not_iterable Demo2.env "null.yaml"
           (clock Demo2.odd_configs) true 15 Demo2.odd_configs "feeds:"
           [("feeds", PyNone)] PyNone); try reflexivity.
  by left.
Defined.

(** X6: a config whose feeds key is bound to one string, not a list,
    is not rejected: every character of the string is taken as a feed. *)
Theorem collect_news_articles_feeds_string
    (E : externals) (path : string) (today : date) (output_csv : bool)
    (timeout : Z) (s : state) (f : string) (d : list (string * pyval)) (urls : string) :
  files s !! path = Some f ->
  yaml_safe_load E f = Ok (PyDict d) ->
  dict_lookup d "feeds" = Some (PyStr urls) ->
  load_feeds E path s = Ok (PyStr <$> chars urls)
  /\ (collect_news_articles E path today output_csv timeout s).1
     = Ok (news_frame E timeout (PyStr <$> chars urls)).
Proof.
  intros Hf Hy Hk.
  assert (load_feeds E path s = Ok (PyStr <$> chars urls)) as Hl.
  { unfold load_feeds. rewrite Hf, Hy. simpl. by rewrite Hk. }
  split; [done|]. by rewrite collect_news_articles_run, Hl.
Qed.

Lemma collect_news_articles_feeds_string_witness :
  load_feeds Demo2.env "text.yaml" Demo2.odd_configs = Ok [PyStr "A"; PyStr "D"]
  /\ (collect_news_articles Demo2.env "text.yaml" (clock Demo2.odd_configs) false 15
        Demo2.odd_configs).1
     = Ok (news_frame Demo2.env 15 (PyStr <$> chars "AD")).
Proof.
  apply (collect_news_articles_feeds_string Demo2.env "text.yaml"
           (clock Demo2.odd_configs) false 15 Demo2.odd_configs "feeds: AD"
           [("feeds", PyStr "AD")] "AD"); reflexivity.
Defined.

(** X7: with [output_csv] off the call has no effect at all, whether it
    returns or raises. *)
Theorem collect_news_articles_without_csv
    (E : externals) (path : string) (today : date) (timeout : Z) (s : state) :
  (collect_news_articles E path today false timeout s).2 = s.
Proof.
  rewrite collect_news_articles_run. by destruct (load_feeds E path s).
Qed.

(** X8: with [output_csv] on the call changes at most the archival file of
    the day: every other file, the console and the downloader requests are
    as before. *)
Theorem collect_news_articles_touches_one_file
    (E : externals) (path : string) (today : date) (timeout : Z) (s : state) :
  delete (news_csv today) (files (collect_news_articles E path today true timeout s).2)
  = delete (news_csv today) (files s)
  /\ stdout (collect_news_articles E path today true timeout s).2 = stdout s
  /\ nltk_downloads (collect_news_articles E path today true timeout s).2
     = nltk_downloads s.
Proof.
  rewrite collect_news_articles_run.
  destruct (load_feeds E path s) as [feeds|e]; simpl; [|done].
  split; [|done]. apply delete_insert_eq.
Qed.

(** X9: when the call returns with [output_csv] on, the archival file is
    the header line followed by one line per row of the very dataset
    returned, in its order. *)
Theorem archival_file_is_returned_dataset
    (E : externals) (path : string) (today : date) (timeout : Z)
    (s s' : state) (df : DataFrame) :
  collect_news_articles E path today true timeout s = (Ok df, s') ->
  files s' !! news_csv today
  = Some (csv_line E ["URL"; "Keywords"; "Text"]
          ++ String.concat "" (csv_line E <$> (row_cells E <$> rows df))).
Proof.
  rewrite collect_news_articles_run.
  destruct (load_feeds E path s) as [feeds|e]; [|done].
  simpl. intros Hrun. injection Hrun as <- <-. simpl.
  rewrite lookup_insert_eq. f_equal. unfold csv_data, news_frame.
  cbn [columns rows]. by rewrite fmap_cons, string_concat_cons.
Qed.

Lemma archival_file_is_returned_dataset_witness :
  files (collect_news_articles Demo.env "feeds.yaml" (clock Demo.start) true 15
           Demo.start).2 !! news_csv (clock Demo.start)
  = Some ("URL,Keywords,Text" ++ Demo.newline
          ++ "http://a/1,[storm, coast],storm hits coast" ++ Demo.newline
          ++ "http://a/3,[]," ++ Demo.newline).
Proof.
  rewrite (archival_file_is_returned_dataset Demo.env "feeds.yaml" (clock Demo.start)
             15 Demo.start
             (collect_news_articles Demo.env "feeds.yaml" (clock Demo.start) true 15
                Demo.start).2
             {| columns := ["URL"; "Keywords"; "Text"];
                rows := [("http://a/1", ["storm"; "coast"], "storm hits coast");
                         ("http://a/3", [], "")] |} eq_refl).
  reflexivity.
Defined.

(** X10: running the call twice on one day, with a config file that is
    not the archival file of that day, gives the second time the same
    dataset and leaves the state the first run left. *)
Theorem collect_news_articles_twice
    (E : externals) (path : string) (today : date) (output_csv : bool)
    (timeout : Z) (s : state) :
  path <> news_csv today ->
  collect_news_articles E path today output_csv timeout
    (collect_news_articles E path today output_csv timeout s).2
  = collect_news_articles E path today output_csv timeout s.
Proof.
  intros Hpath. rewrite !collect_news_articles_run.
  destruct (load_feeds E path s) as [feeds|e] eqn:Hl; simpl.
  - destruct output_csv; [|by rewrite Hl].
    assert (load_feeds E path
              (set_files (insert (news_csv today) (csv_data E (news_frame E timeout feeds))) s)
            = Ok feeds) as ->.
    { unfold load_feeds in *. simpl. by rewrite lookup_insert_ne. }
    unfold set_files. simpl. by rewrite insert_insert_eq.
  - by rewrite Hl.
Qed.

Lemma collect_news_articles_twice_witness :
  "feeds.yaml" <> news_csv (clock Demo.start)
  /\ collect_news_articles Demo.env "feeds.yaml" (clock Demo.start) true 15
       (collect_news_articles Demo.env "feeds.yaml" (clock Demo.start) true 15
          Demo.start).2
     = collect_news_articles Demo.env "feeds.yaml" (clock Demo.start) true 15 Demo.start.
Proof.
  split; [discriminate|].
  apply (collect_news_articles_twice Demo.env "feeds.yaml" (clock Demo.start) true 15
           Demo.start).
  discriminate.
Defined.

(** ** The feed loop *)

(** X11: links pile up in feed order and nothing is dropped: what was
    collected before stays in front, the links of a first list of feeds
    come before those of a second, and a feed listed twice gives its links
    twice. *)
Theorem feed_loop_in_order
    (E : externals) (timeout : Z) (feeds1 feeds2 : list pyval) (articles : list string) :
  exists links1 links2,
    for_each feeds1 (feed_body E timeout) [] = (Ok tt, links1)
    /\ for_each feeds2 (feed_body E timeout) [] = (Ok tt, links2)
    /\ for_each (feeds1 ++ feeds2) (feed_body E timeout) articles
       = (Ok tt, (articles ++ links1 ++ links2)%list).
Proof.
  exists (feeds1 ≫= feed_links E timeout), (feeds2 ≫= feed_links E timeout).
  rewrite !feed_loop_run, bind_app. done.
Qed.

(** X12: the status code of a response is never looked at: two feeds
    whose responses carry the same body give the same links, whatever
    their status codes. *)
Theorem feed_status_is_ignored
    (E : externals) (timeout1 timeout2 : Z) (feed1 feed2 : pyval)
    (r1 r2 : response) (articles : list string) :
  requests_get E feed1 timeout1 = Ok r1 ->
  requests_get E feed2 timeout2 = Ok r2 ->
  content r1 = content r2 ->
  feed_body E timeout1 feed1 articles = feed_body E timeout2 feed2 articles.
Proof.
  intros H1 H2 Hc. rewrite !feed_body_run. unfold feed_links.
  by rewrite H1, H2, Hc.
Qed.

Lemma feed_status_is_ignored_witness :
  status_code {| status_code := 200; content := "rss A" |}
  <> status_code {| status_code := 404; content := "rss A" |}
  /\ feed_body Demo2.env 15 (PyStr "A") [] = feed_body Demo2.env 15 (PyStr "D") []
  /\ feed_body Demo2.env 15 (PyStr "D") []
     = (Ok tt, ["http://a/1"; "http://a/2"; "http://a/3"]).
Proof.
  split; [discriminate|]. split; [|reflexivity].
  apply (feed_status_is_ignored Demo2.env 15 15 (PyStr "A") (PyStr "D")
           {| status_code := 200; content := "rss A" |}
           {| status_code := 404; content := "rss A" |} []); reflexivity.
Defined.

(** X13: a feed that is fetched and parsed gives at most one link per
    item, in item order, and none of them is the empty string; the items
    without a link tag, or with an empty one, give nothing. *)
Theorem parsed_feed_links
    (E : externals) (timeout : Z) (feed : pyval) (r : response) (sp : soup E)
    (articles : list string) :
  requests_get E feed timeout = Ok r ->
  BeautifulSoup E (content r) "xml" = Ok sp ->
  exists links,
    feed_body E timeout feed articles = (Ok tt, (articles ++ links)%list)
    /\ links = soup_find_all E sp "item" ≫= item_link E
    /\ length links <= length (soup_find_all E sp "item")
    /\ Forall (fun url => url <> "") links.
Proof.
  intros Hget Hparse. exists (soup_find_all E sp "item" ≫= item_link E).
  split; [|split; [done|split]].
  - rewrite feed_body_run. unfold feed_links. by rewrite Hget, Hparse.
  - induction (soup_find_all E sp "item") as [|item items IH]; [done|].
    rewrite bind_cons, length_app. simpl.
    assert (length (item_link E item) <= 1); [|lia].
    unfold item_link. destruct (tag_find E item "link") as [t|]; simpl; [|lia].
    destruct (str_truthy (tag_text E t)); simpl; lia.
  - apply Forall_forall. intros url Hin.
    apply list_elem_of_bind in Hin. destruct Hin as (item & Hin & _).
    by eapply item_link_nonempty.
Qed.

Lemma parsed_feed_links_witness :
  length (soup_find_all Demo.env Demo.feed_A "item") = 5
  /\ exists links,
       feed_body Demo.env 15 (PyStr "A") ["seen"] = (Ok tt, ("seen" :: links)%list)
       /\ links = soup_find_all Demo.env Demo.feed_A "item" ≫= item_link Demo.env
       /\ length links <= length (soup_find_all Demo.env Demo.feed_A "item")
       /\ Forall (fun url => url <> "") links.
Proof.
  split; [reflexivity|].
  apply (parsed_feed_links Demo.env 15 (PyStr "A")
           {| status_code := 200; content := "rss A" |} Demo.feed_A ["seen"]);
    reflexivity.
Defined.

(** ** The renderer with a mask image *)

(** X14: a mask image that is missing, or that cannot be decoded, makes
    the call raise that error before anything is laid out: no file is
    written and no entropy is drawn. *)
Theorem generate_wordcloud_bad_mask
    (E : externals) (a : wordcloud_args) (s : state) (path : string) (e : exception) :
  mask_image a = Some path ->
  path <> "" ->
  match files s !! path with
  | None => e = FileNotFoundError
  | Some data => Image_open E data = Raise e
  end ->
  generate_wordcloud E a s = (Raise e, s).
Proof.
  intros Hmask Hpath Hopen. unfold generate_wordcloud, open_read.
  rewrite Hmask. simpl.
  assert (str_truthy path = true) as -> by (by destruct path).
  run_monad. destruct (files s !! path) as [data|]; simpl.
  - by rewrite Hopen.
  - by subst.
Qed.

Lemma generate_wordcloud_bad_mask_witness :
  generate_wordcloud Demo.env
    (us_flag_wordcloud "storm coast" (clock Demo2.no_flag) (main_stopwords Demo.env))
    Demo2.no_flag
  = (Raise FileNotFoundError, Demo2.no_flag)
  /\ generate_wordcloud Demo.env
       (with_mask_image (Some "empty.yaml") Demo.plain_call) Demo.start
     = (Raise OSError, Demo.start).
Proof.
  split.
  - apply (generate_wordcloud_bad_mask Demo.env _ Demo2.no_flag "Flag.jpg");
      [reflexivity | discriminate | reflexivity].
  - apply (generate_wordcloud_bad_mask Demo.env _ Demo.start "empty.yaml");
      [reflexivity | discriminate | reflexivity].
Defined.

(** X15: an empty string as mask image counts as no mask image: the call
    does what the call without a mask does, and opens no file. *)
Theorem generate_wordcloud_empty_mask_name
    (E : externals) (a : wordcloud_args) (s : state) :
  generate_wordcloud E (with_mask_image (Some "") a) s
  = generate_wordcloud E (with_mask_image None a) s.
Proof. by rewrite !generate_wordcloud_no_mask. Qed.

(** X16: a call changes nothing but its own output file: when it returns,
    the files are the former ones with the output file set; when it
    raises, the files are the former ones; the console and the downloader
    requests are as before in both cases. *)
Theorem generate_wordcloud_writes_only_output
    (E : externals) (a : wordcloud_args) (s : state) :
  stdout (generate_wordcloud E a s).2 = stdout s
  /\ nltk_downloads (generate_wordcloud E a s).2 = nltk_downloads s
  /\ match (generate_wordcloud E a s).1 with
     | Ok _ => exists img,
         files (generate_wordcloud E a s).2 = <[output_file a := img]> (files s)
     | Raise _ => files (generate_wordcloud E a s).2 = files s
     end.
Proof.
  destruct (generate_wordcloud_effect E a s) as (Hout & Hdl & _ & Hfiles). done.
Qed.



(** ** File names *)

Lemma digit_inj (n m : nat) : digit n = digit m -> n mod 10 = m mod 10.
Proof.
  unfold digit. intros H. apply (f_equal nat_of_ascii) in H.
  rewrite !nat_ascii_embedding in H.
  - lia.
  - pose proof (Nat.mod_upper_bound m 10). lia.
  - pose proof (Nat.mod_upper_bound n 10). lia.
Qed.

Lemma pad2_inj (n m : nat) : pad2 n = pad2 m <-> n mod 100 = m mod 100.
Proof.
  unfold pad2. split.
  - intros H.
    assert (digit (n / 10) = digit (m / 10)) as H1 by congruence.
    assert (digit n = digit m) as H2 by congruence.
    apply digit_inj in H1. apply digit_inj in H2.
    change 100 with (10 * 10).
    rewrite !Nat.Div0.mod_mul_r. by rewrite H1, H2.
  - intros H. change 100 with (10 * 10) in H.
    rewrite !Nat.Div0.mod_mul_r in H.
    pose proof (Nat.mod_upper_bound n 10) as Bn.
    pose proof (Nat.mod_upper_bound m 10) as Bm.
    assert (n mod 10 = m mod 10) as E0 by lia.
    assert ((n / 10) mod 10 = (m / 10) mod 10) as E1 by lia.
    unfold digit. by rewrite E0, E1.
Qed.

(** X18: the date part of a file name has eight characters, and two dates
    give the same one exactly when they agree in month, day and the last
    two digits of the year (months and days taken modulo 100, which
    changes nothing for a calendar date); a century apart, the names
    coincide. *)
Theorem strftime_m_d_y_same (d1 d2 : date) :
  String.length (strftime_m_d_y d1) = 8
  /\ (strftime_m_d_y d1 = strftime_m_d_y d2
      <-> month d1 mod 100 = month d2 mod 100
          /\ day d1 mod 100 = day d2 mod 100
          /\ year d1 mod 100 = year d2 mod 100).
Proof.
  split; [done|].
  assert (forall d, strftime_m_d_y d
          = String (digit (month d / 10)) (String (digit (month d))
              (String "_" (String (digit (day d / 10)) (String (digit (day d))
                 (String "_" (pad2 (year d mod 100)))))))) as Hs by done.
  rewrite !Hs. split.
  - intros H.
    assert (pad2 (month d1) = pad2 (month d2)) as Hm by (unfold pad2; congruence).
    assert (pad2 (day d1) = pad2 (day d2)) as Hd by (unfold pad2; congruence).
    assert (pad2 (year d1 mod 100) = pad2 (year d2 mod 100)) as Hy by congruence.
    apply pad2_inj in Hm. apply pad2_inj in Hd. apply pad2_inj in Hy.
    by rewrite !Nat.Div0.mod_mod in Hy.
  - intros (Hm & Hd & Hy).
    apply pad2_inj in Hm. apply pad2_inj in Hd. unfold pad2 in Hm, Hd.
    rewrite Hy. congruence.
Qed.

Ltac names_differ :=
  let H := fresh in
  intros H; apply (f_equal String.length) in H;
  unfold output_file, news_csv in H; simpl in H;
  rewrite ?string_length_app in H; simpl in H;
  rewrite ?string_length_app in H; simpl in H; lia.

Lemma main_names_differ (E : externals) (text1 text2 text3 text4 : string)
    (sw1 sw2 sw3 : gset string) (today : date) :
  NoDup [ news_csv today;
          output_file (original_wordcloud text1 today sw1);
          output_file (us_flag_wordcloud text2 today sw2);
          output_file (tree_wordcloud text3 today sw3);
          output_file (modern_wordcloud E text4 today) ]
  /\ Forall (fun name => name <> "feeds.yaml" /\ name <> "Flag.jpg"
                         /\ name <> "Tree.jpg" /\ name <> "comment.png")
       [ news_csv today;
         output_file (original_wordcloud text1 today sw1);
         output_file (us_flag_wordcloud text2 today sw2);
         output_file (tree_wordcloud text3 today sw3);
         output_file (modern_wordcloud E text4 today) ].
Proof.
  split.
  - repeat (apply NoDup_cons; split;
            [rewrite ?not_elem_of_cons; repeat split;
             try names_differ; apply not_elem_of_nil|]).
    apply NoDup_nil_2.
  - repeat (apply Forall_cons; split; [repeat split; names_differ|]).
    apply Forall_nil_2.
Qed.

(** X19: on any day the script's five output names (the archival file and
    the four images) are five different names, and none is the name of the
    config file or of a mask image: no output overwrites another output or
    an input. *)
Theorem main_outputs_are_distinct (E : externals) (text : string) (today : date) :
  NoDup (news_csv today :: (output_file <$> main_calls E text today))
  /\ Forall (fun name => name ∉ ["feeds.yaml"; "Flag.jpg"; "Tree.jpg"; "comment.png"])
       (news_csv today :: (output_file <$> main_calls E text today)).
Proof.
  destruct (main_names_differ E text text text text (main_stopwords E)
              (main_stopwords E) (main_stopwords E) today) as [Hnd Hin].
  split; [exact Hnd|].
  eapply Forall_impl; [exact Hin|].
  intros name (H1 & H2 & H3 & H4). rewrite !not_elem_of_cons.
  repeat split; try done. apply not_elem_of_nil.
Qed.

(** ** The script body, end to end *)

Lemma main_run (E : externals) (s : state) :
  main E s =
  match check_nltk_resource E "punkt_tab" s with
  | (Raise e, s1) => (Raise e, s1)
  | (Ok _, s1) =>
      match collect_news_articles E "feeds.yaml" (clock s1) true 15 s1 with
      | (Raise e, s2) => (Raise e, s2)
      | (Ok df, s2) =>
          for_each (main_calls E (keywords_text df) (clock s1)) (generate_wordcloud E) s2
      end
  end.
Proof.
  rewrite main_runs_main_calls. run_monad.
  destruct (check_nltk_resource E "punkt_tab" s) as [[[]|e] s1]; [|done].
  by destruct (collect_news_articles E "feeds.yaml" (clock s1) true 15 s1)
    as [[df|e] s2].
Qed.

Lemma load_feeds_files (E : externals) (path : string) (s1 s2 : state) :
  files s1 = files s2 -> load_feeds E path s1 = load_feeds E path s2.
Proof. unfold load_feeds. by intros ->. Qed.

Lemma check_nltk_resource_keeps (E : externals) (resource_name : string) (s : state) :
  files (check_nltk_resource E resource_name s).2 = files s
  /\ clock (check_nltk_resource E resource_name s).2 = clock s.
Proof.
  destruct (check_nltk_resource_cases E resource_name s) as [H|[H|[e H]]];
    by rewrite H.
Qed.

(** What one renderer call does to the files, in the two cases. *)
Lemma generate_wordcloud_files (E : externals) (a : wordcloud_args) (s : state) :
  (exists img s', generate_wordcloud E a s = (Ok tt, s')
                  /\ files s' = <[output_file a := img]> (files s))
  \/ (exists e s', generate_wordcloud E a s = (Raise e, s') /\ files s' = files s).
Proof.
  destruct (generate_wordcloud_effect E a s) as (_ & _ & _ & Hfiles).
  destruct (generate_wordcloud E a s) as [[[]|e] s']; simpl in *.
  - left. destruct Hfiles as [img Himg]. by exists img, s'.
  - right. by exists e, s'.
Qed.

Lemma generate_wordcloud_mask_missing (E : externals) (a : wordcloud_args)
    (s : state) (path : string) :
  mask_image a = Some path -> path <> "" -> files s !! path = None ->
  generate_wordcloud E a s = (Raise FileNotFoundError, s).
Proof.
  intros Hmask Hpath Hnone. unfold generate_wordcloud, open_read.
  rewrite Hmask. simpl.
  assert (str_truthy path = true) as -> by (by destruct path).
  run_monad. by rewrite Hnone.
Qed.

(** X20: when the config cannot be loaded into a list of feeds, the
    script ends with an exception and has written no file. *)
Theorem main_without_config (E : externals) (s : state) (e : exception) :
  load_feeds E "feeds.yaml" s = Raise e ->
  (exists e', (main E s).1 = Raise e') /\ files (main E s).2 = files s.
Proof.
  intros Hl. rewrite main_run.
  destruct (check_nltk_resource_keeps E "punkt_tab" s) as [Hf Hc].
  destruct (check_nltk_resource E "punkt_tab" s) as [[[]|e1] s1]; simpl in *.
  - rewrite collect_news_articles_run.
    rewrite (load_feeds_files E "feeds.yaml" s1 s Hf), Hl. simpl.
    split; [by eexists | done].
  - split; [by eexists | done].
Qed.

Lemma main_without_config_witness :
  load_feeds Demo.env "feeds.yaml" Demo2.odd_configs = Raise FileNotFoundError
  /\ (exists e', (main Demo.env Demo2.odd_configs).1 = Raise e')
  /\ files (main Demo.env Demo2.odd_configs).2 = files Demo2.odd_configs.
Proof.
  split; [reflexivity|].
  apply (main_without_config Demo.env Demo2.odd_configs FileNotFoundError).
  reflexivity.
Defined.

(** X21: when the flag image is missing, the script ends with an
    exception, and the two images that come after the flag one (the tree
    and the colormap ones) are not written. *)
Theorem main_without_flag_image (E : externals) (s : state) :
  files s !! "Flag.jpg" = None ->
  (exists e, (main E s).1 = Raise e)
  /\ forall text sw,
       files (main E s).2 !! output_file (tree_wordcloud text (clock s) sw)
       = files s !! output_file (tree_wordcloud text (clock s) sw)
       /\ files (main E s).2 !! output_file (modern_wordcloud E text (clock s))
          = files s !! output_file (modern_wordcloud E text (clock s)).
Proof.
  intros Hflag. rewrite main_run.
  destruct (check_nltk_resource_keeps E "punkt_tab" s) as [Hf Hc].
  destruct (check_nltk_resource E "punkt_tab" s) as [[[]|e1] s1]; simpl in *;
    [|split; [by eexists | intros; by rewrite Hf]].
  rewrite collect_news_articles_run.
  destruct (load_feeds E "feeds.yaml" s1) as [feeds|e1]; simpl;
    [|split; [by eexists | intros; by rewrite Hf]].
  run_monad. rewrite Hc.
  match goal with
  | |- context [generate_wordcloud E ?a ?st] =>
      destruct (generate_wordcloud_files E a st)
        as [(img & s3 & Hrun & Hfiles)|(e & s3 & Hrun & Hfiles)];
      rewrite Hrun; simpl in Hfiles
  end.
  - rewrite (generate_wordcloud_mask_missing E _ s3 "Flag.jpg");
      [|done|done|].
    + simpl. split; [by eexists|]. intros text sw. rewrite Hfiles.
      rewrite !lookup_insert_ne by names_differ. by rewrite Hf.
    + rewrite Hfiles. rewrite !lookup_insert_ne by names_differ.
      by rewrite Hf.
  - simpl. split; [by eexists|]. intros text sw. rewrite Hfiles.
    rewrite !lookup_insert_ne by names_differ. by rewrite Hf.
Qed.

Lemma main_without_flag_image_witness :
  files Demo2.no_flag !! "Flag.jpg" = None
  /\ (main Demo.env Demo2.no_flag).1 = Raise FileNotFoundError
  /\ is_Some (files (main Demo.env Demo2.no_flag).2 !! "original_wordcloud_03_09_26.png")
  /\ files (main Demo.env Demo2.no_flag).2
       !! output_file (tree_wordcloud "" (clock Demo2.no_flag) ∅) = None
  /\ files (main Demo.env Demo2.no_flag).2
       !! output_file (modern_wordcloud Demo.env "" (clock Demo2.no_flag)) = None.
Proof.
  split; [reflexivity|]. split; [reflexivity|]. split; [by eexists|].
  destruct (main_without_flag_image Demo.env Demo2.no_flag eq_refl) as [_ Hnot].
  destruct (Hnot "" ∅) as [Htree Hmodern].
  split; [rewrite Htree | rewrite Hmodern]; reflexivity.
Defined.

Lemma output_file_png (a : wordcloud_args) :
  output_file a = png_name (output_prefix a) (today a).
Proof. reflexivity. Qed.

Ltac png_names_differ :=
  let H := fresh in
  intros H; apply (f_equal String.length) in H;
  unfold png_name, news_csv in H;
  rewrite ?string_length_app in H; simpl in H; lia.

(** X22: when the script ends normally, the archival file and the four
    images of the day exist, and every other file is as it was before the
    run. *)
Theorem main_success_files (E : externals) (s s' : state) :
  main E s = (Ok tt, s') ->
  Forall (fun name => is_Some (files s' !! name))
    (news_csv (clock s) :: (output_file <$> main_calls E "" (clock s)))
  /\ forall name,
       name ∉ news_csv (clock s) :: (output_file <$> main_calls E "" (clock s)) ->
       files s' !! name = files s !! name.
Proof.
  rewrite main_run.
  destruct (check_nltk_resource_keeps E "punkt_tab" s) as [Hf Hc].
  destruct (check_nltk_resource E "punkt_tab" s) as [[[]|e1] s1];
    cbn [fst snd] in *; [|done].
  rewrite collect_news_articles_run.
  destruct (load_feeds E "feeds.yaml" s1) as [feeds|e1]; cbn zeta; [|done].
  rewrite Hc. unfold main_calls. cbn [for_each]. run_monad.
  repeat match goal with
  | |- context [generate_wordcloud E ?a ?st] =>
      let Hrun := fresh "Hrun" in
      let Hfiles := fresh "Hfiles" in
      destruct (generate_wordcloud_files E a st)
        as [(? & ? & Hrun & Hfiles)|(? & ? & Hrun & Hfiles)];
      rewrite Hrun; [|done]
  end.
  intros Hmain. injection Hmain as <-.
  cbn [files set_files] in *.
  repeat match goal with H : files _ = _ |- _ => rewrite H; clear H end.
  cbn [fmap list_fmap].
  rewrite !output_file_png.
  cbn [output_prefix today original_wordcloud us_flag_wordcloud tree_wordcloud
         modern_wordcloud].
  split.
  - repeat (apply Forall_cons; split;
            [rewrite ?lookup_insert_ne by png_names_differ;
             rewrite lookup_insert_eq; by eexists |]).
    apply Forall_nil_2.
  - intros name Hname. rewrite !not_elem_of_cons in Hname.
    destruct Hname as (H1 & H2 & H3 & H4 & H5 & _).
    by rewrite !lookup_insert_ne by congruence.
Qed.

Lemma main_success_files_witness :
  (main Demo.env Demo.start).1 = Ok tt
  /\ Forall (fun name => is_Some (files (main Demo.env Demo.start).2 !! name))
       (news_csv (clock Demo.start)
        :: (output_file <$> main_calls Demo.env "" (clock Demo.start)))
  /\ files (main Demo.env Demo.start).2 !! "feeds.yaml" = Some "feeds: [A, B, C]".
Proof.
  assert (main Demo.env Demo.start = (Ok tt, (main Demo.env Demo.start).2)) as Hrun
    by (vm_compute; reflexivity).
  destruct (main_success_files Demo.env Demo.start _ Hrun) as [Hall Hrest].
  split; [exact (f_equal fst Hrun)|]. split; [exact Hall|].
  rewrite Hrest; [vm_compute; reflexivity|].
  cbn [fmap list_fmap main_calls]. rewrite !output_file_png, !not_elem_of_cons.
  repeat split; try discriminate. apply not_elem_of_nil.
Defined.

(** X23: when the keywords of the dataset are all empty (every feed or
    article failed, or no article has a keyword) and the library rejects an
    empty text, the script writes the archival file and then ends with the
    library's exception at the first image: no image is written. *)
Theorem main_without_keywords
    (E : externals) (s : state) (feeds : list pyval) (err : exception) :
  (check_nltk_resource E "punkt_tab" s).1 = Ok tt ->
  load_feeds E "feeds.yaml" s = Ok feeds ->
  concat (row_Keywords <$> dataset E 15 feeds) = [] ->
  (forall p seed, wordcloud_layout E p seed "" = Raise err) ->
  (main E s).1 = Raise err
  /\ files (main E s).2
     = <[news_csv (clock s) := csv_data E (news_frame E 15 feeds)]> (files s).
Proof.
  intros Hcheck Hl Hkw Hlayout. rewrite main_run.
  destruct (check_nltk_resource_keeps E "punkt_tab" s) as [Hf Hc].
  destruct (check_nltk_resource E "punkt_tab" s) as [[[]|e1] s1]; simpl in *; [|done].
  rewrite collect_news_articles_run.
  rewrite (load_feeds_files E "feeds.yaml" s1 s Hf), Hl. simpl.
  run_monad. unfold keywords_text, df_Keywords. simpl. rewrite Hkw. simpl.
  rewrite generate_wordcloud_no_mask by done.
  simpl. rewrite Hlayout. simpl. by rewrite Hc, Hf.
Qed.

Lemma main_without_keywords_witness :
  csv_data Demo.env (news_frame Demo.env 15 [PyStr "B"])
  = "URL,Keywords,Text" ++ Demo.newline
  /\ (main Demo.env Demo2.all_down).1 = Raise ValueError
  /\ files (main Demo.env Demo2.all_down).2
     = <[news_csv (clock Demo2.all_down)
         := csv_data Demo.env (news_frame Demo.env 15 [PyStr "B"])]>
         (files Demo2.all_down).
Proof.
  split; [vm_compute; reflexivity|].
  apply (main_without_keywords Demo.env Demo2.all_down [PyStr "B"] ValueError);
    [vm_compute; reflexivity | vm_compute; reflexivity | vm_compute; reflexivity
    | intros p seed; reflexivity ].
Defined.
